(** * House-price API: prediction, feedback and the retrain cycle

    A shallow embedding of [api.py], [src/features/build_features.py],
    [src/models/train_model.py] and [src/models/predict_model.py].

    - Python values that reach a DataFrame cell or a JSON document are
      [cell]s; a dict and a one-row DataFrame are association lists in
      column order ([row]).
    - The file system is part of the [World], next to the three module
      globals of [api.py] ([model], [model_features], [model_metrics]).
    - pandas, NumPy, scikit-learn, XGBoost, joblib, json and pydantic are
      not part of the repository: what the code calls in them is the
      interface [Libraries].
    - An exception is a [Raise]; the system calls that can fail for
      reasons outside the modelled state take their outcome from a
      [Faults] record. *)

From Stdlib Require Import ZArith String Ascii Floats List Lia.
From stdpp Require Import base option list strings pretty gmap fin_maps.

Set Warnings "-inexact-float".
#[local] Open Scope string_scope.
#[local] Open Scope Z_scope.

(** ** Exceptions *)

(** An exception, identified with its [str(e)]. *)
Definition exn : Type := string.

Inductive result (A : Type) : Type :=
| Ok (a : A)
| Raise (e : exn).

Arguments Ok {A} a.
Arguments Raise {A} e.

#[global] Instance result_ret : MRet result := fun A a => Ok a.

#[global] Instance result_bind : MBind result :=
  fun A B f m => match m with Ok a => f a | Raise e => Raise e end.

Definition is_ok {A} (r : result A) : bool :=
  match r with Ok _ => true | Raise _ => false end.

(** ** Cells and rows *)

Record date : Type := { year : Z; month : Z; day : Z }.

(** Scalars of the payloads and of the engineered columns: Python
    [int] in an int64 column, [float], [str], and the [datetime64]
    of the [date_dt] column ([None] is [NaT]). *)
Inductive cell : Type :=
| CInt (z : Z)
| CFloat (f : float)
| CStr (s : string)
| CDate (d : option date).

(** A dict, or the only row of [pd.DataFrame([dict])], keys in order. *)
Definition row : Type := list (string * cell).

Fixpoint row_get (col : string) (df : row) : option cell :=
  match df with
  | [] => None
  | (c, v) :: rest => if String.eqb c col then Some v else row_get col rest
  end.

(** [df[col] = v]: replaces the column where it stands, or appends it. *)
Fixpoint row_set (col : string) (v : cell) (df : row) : row :=
  match df with
  | [] => [(col, v)]
  | (c, x) :: rest =>
      if String.eqb c col then (c, v) :: rest else (c, x) :: row_set col v rest
  end.

Definition columns (df : row) : list string := map fst df.

(** [df[col]], a [KeyError] when the column is missing. *)
Definition getitem (col : string) (df : row) : result cell :=
  match row_get col df with
  | Some v => Ok v
  | None => Raise ("KeyError: " ++ col)
  end.

(** ** NumPy arithmetic on cells *)

(** int64 wrap-around. *)
Definition wrap64 (z : Z) : Z := (z + 2 ^ 63) mod 2 ^ 64 - 2 ^ 63.

(** int64 to float64, round to nearest even. *)
Definition Z2float (z : Z) : float :=
  SF2Prim (binary_normalize prec emax z 0 false).

Definition TypeError : exn := "TypeError: unsupported operand type(s)".

Definition np_sub (a b : cell) : result cell :=
  match a, b with
  | CInt x, CInt y => Ok (CInt (wrap64 (x - y)))
  | CInt x, CFloat g => Ok (CFloat (Z2float x - g))
  | CFloat f, CInt y => Ok (CFloat (f - Z2float y))
  | CFloat f, CFloat g => Ok (CFloat (f - g))
  | _, _ => Raise TypeError
  end.

Definition np_add (a b : cell) : result cell :=
  match a, b with
  | CInt x, CInt y => Ok (CInt (wrap64 (x + y)))
  | CInt x, CFloat g => Ok (CFloat (Z2float x + g))
  | CFloat f, CInt y => Ok (CFloat (f + Z2float y))
  | CFloat f, CFloat g => Ok (CFloat (f + g))
  | CStr s, CStr t => Ok (CStr (s ++ t))
  | _, _ => Raise TypeError
  end.

(** True division: the result is always float64; a zero divisor gives
    [inf] or [nan], not an exception. *)
Definition np_div (a b : cell) : result cell :=
  match a, b with
  | CInt x, CInt y => Ok (CFloat (Z2float x / Z2float y))
  | CInt x, CFloat g => Ok (CFloat (Z2float x / g))
  | CFloat f, CInt y => Ok (CFloat (f / Z2float y))
  | CFloat f, CFloat g => Ok (CFloat (f / g))
  | _, _ => Raise TypeError
  end.

(** [series == 0]: never raises, [False] on a value that is no number. *)
Definition np_eq0 (a : cell) : bool :=
  match a with
  | CInt x => x =? 0
  | CFloat f => PrimFloat.eqb f 0
  | _ => false
  end.

(** [series > 0]. *)
Definition np_gt0 (a : cell) : result bool :=
  match a with
  | CInt x => Ok (0 <? x)
  | CFloat f => Ok (PrimFloat.ltb 0 f)
  | _ => Raise TypeError
  end.

(** [np.where(cond, a, b)] on one row: the chosen value, in the common
    dtype of [a] and [b]. *)
Definition np_where (cond : bool) (a b : cell) : cell :=
  let chosen := if cond then a else b in
  match a, b with
  | CInt _, CFloat _ | CFloat _, CInt _ =>
      match chosen with CInt x => CFloat (Z2float x) | c => c end
  | _, _ => chosen
  end.

(** [series.astype(int)] of a boolean series. *)
Definition astype_int (b : bool) : cell := CInt (if b then 1 else 0).

(** ** Strings *)

(** [s.endswith(suffix)]. *)
Definition endswith (s suffix : string) : bool :=
  let n := String.length s in
  let k := String.length suffix in
  (k <=? n)%nat && String.eqb (substring (n - k) k s) suffix.

(** [s.split('T')[0]]. *)
Fixpoint before_T (s : string) : string :=
  match s with
  | EmptyString => EmptyString
  | String c rest => if Ascii.eqb c "T" then EmptyString else String c (before_T rest)
  end.

(** [os.path.join(dir, name)]. *)
Definition path_join (dir name : string) : string := dir ++ "/" ++ name.

(** ** The libraries the code calls *)

Class Libraries : Type := {
  (** pandas *)
  DataFrame : Type;
  read_csv : string -> result DataFrame;
  to_csv : DataFrame -> string;
  DataFrame_of_records : list row -> DataFrame;
  rename_columns : string -> string -> DataFrame -> DataFrame;
  concat : DataFrame -> DataFrame -> DataFrame;
  (** [pd.to_datetime] of one string: a date, [NaT] ([None]), or an error *)
  to_datetime : string -> result (option date);
  (** NumPy *)
  log1p : float -> float;
  expm1 : float -> float;
  (** json; a document that is no object behaves, for the code here,
      as an object without the keys that are looked up *)
  json_load : string -> result row;
  json_dump : row -> string;
  (** joblib and the fitted estimator *)
  Model : Type;
  joblib_load : string -> result Model;
  joblib_dump : Model -> string;
  feature_names_in_ : Model -> result (list string);
  model_predict : Model -> row -> result float;
  (** scikit-learn *)
  mean_absolute_percentage_error : list cell -> list float -> result float;
  (** lines 48-103 of [train]: the split into features and target, the
      randomized search and the scores [(r2, rmse, mae, mape)] of the
      best estimator on the test set *)
  search_and_score : DataFrame -> DataFrame -> result (Model * (float * float * float * float));
  (** format specifications [f"${x:,.2f}"] and [f"{x:.2%}"] *)
  format_usd : float -> string;
  format_pct : float -> string;
  (** pydantic's validators of the field types *)
  validate_int : cell -> option Z;
  validate_float : cell -> option float;
  validate_str : cell -> option string;
}.

(** ** Feature engineering: [build_features.py] *)

Section Features.
Context `{L : Libraries}.

Definition np_log1p (a : cell) : result cell :=
  match a with
  | CInt x => Ok (CFloat (log1p (Z2float x)))
  | CFloat f => Ok (CFloat (log1p f))
  | _ => Raise TypeError
  end.

(** Lines 29-40: the year of analysis, and the frame with [date_dt]
    when the conversion succeeded. Any exception inside the [try]
    (the [.str] accessor on a column that holds no strings, a date that
    does not parse) leaves the frame as it was and falls back to 2015;
    so does [NaT]. *)
Definition analysis_year_of (df : row) : row * Z :=
  match row_get "date" df with
  | Some (CStr s) =>
      match to_datetime (before_T s) with
      | Ok (Some d) => (row_set "date_dt" (CDate (Some d)) df, year d)
      | Ok None => (row_set "date_dt" (CDate None) df, 2015)
      | Raise _ => (df, 2015)
      end
  | Some _ => (df, 2015)
  | None => (df, 2015)
  end.

Definition engineer_features (df : row) : result row :=
  df ← match row_get "price" df with
       | Some p => v ← np_log1p p; Ok (row_set "log_price" v df)
       | None => Ok df
       end;
  let '(df, analysis_year) := analysis_year_of df in
  yr_built ← getitem "yr_built" df;
  house_age ← np_sub (CInt analysis_year) yr_built;
  let df := row_set "house_age" house_age df in
  yr_renovated ← getitem "yr_renovated" df;
  since ← np_sub (CInt analysis_year) yr_renovated;
  let df := row_set "time_since_renovation"
              (np_where (np_eq0 yr_renovated) house_age since) df in
  renovated ← np_gt0 yr_renovated;
  let df := row_set "was_renovated" (astype_int renovated) df in
  bedrooms ← getitem "bedrooms" df;
  bathrooms ← getitem "bathrooms" df;
  total_rooms ← np_add bedrooms bathrooms;
  let df := row_set "total_rooms" total_rooms df in
  sqft_living ← getitem "sqft_living" df;
  divisor ← np_add total_rooms (CFloat 1e-6);
  sqft_per_room ← np_div sqft_living divisor;
  Ok (row_set "sqft_per_room" sqft_per_room df).

End Features.

(** ** Reindexing onto the feature schema *)

(** [df.reindex(columns=cols)]: the frame's columns become [cols], in
    that order; a column the frame lacks is all-NaN. [columns=None]
    leaves the frame as it is. *)
Definition reindex (cols : option (list string)) (df : row) : row :=
  match cols with
  | None => df
  | Some names => map (fun c => (c, default (CFloat nan) (row_get c df))) names
  end.

(** [pd.isna]. *)
Definition isna (v : cell) : bool :=
  match v with
  | CFloat f => is_nan f
  | CDate None => true
  | _ => false
  end.

(** [df.fillna(0)]: every missing value of the frame becomes zero, in
    a present column as in an absent one. *)
Definition fillna_zero (df : row) : row :=
  map (fun cv => (fst cv, if isna (snd cv) then
                            match snd cv with CFloat _ => CFloat 0 | _ => CInt 0 end
                          else snd cv)) df.

(** ** Payloads: the pydantic models of [api.py] *)

Record HouseData : Type := {
  id : Z;
  date_ : string;
  bedrooms : Z;
  bathrooms : float;
  sqft_living : Z;
  sqft_lot : Z;
  floors : float;
  waterfront : Z;
  view : Z;
  condition : Z;
  grade : Z;
  sqft_above : Z;
  sqft_basement : Z;
  yr_built : Z;
  yr_renovated : Z;
  zipcode : Z;
  lat : float;
  long : float;
  Mean_Income : float;
  Education_Bachelors_or_Higher : float;
  Population_Density : float;
}.

Record FeedbackData : Type := {
  house : HouseData;
  ground_truth_price : float;
}.

(** [data.dict()]: the declared fields, in declaration order. *)
Definition HouseData_dict (d : HouseData) : row :=
  [ ("id", CInt (id d)); ("date", CStr (date_ d));
    ("bedrooms", CInt (bedrooms d)); ("bathrooms", CFloat (bathrooms d));
    ("sqft_living", CInt (sqft_living d)); ("sqft_lot", CInt (sqft_lot d));
    ("floors", CFloat (floors d)); ("waterfront", CInt (waterfront d));
    ("view", CInt (view d)); ("condition", CInt (condition d));
    ("grade", CInt (grade d)); ("sqft_above", CInt (sqft_above d));
    ("sqft_basement", CInt (sqft_basement d)); ("yr_built", CInt (yr_built d));
    ("yr_renovated", CInt (yr_renovated d)); ("zipcode", CInt (zipcode d));
    ("lat", CFloat (lat d)); ("long", CFloat (long d));
    ("Mean_Income", CFloat (Mean_Income d));
    ("Education_Bachelors_or_Higher", CFloat (Education_Bachelors_or_Higher d));
    ("Population_Density", CFloat (Population_Density d)) ].

Definition FeedbackData_dict (d : FeedbackData) : row :=
  (HouseData_dict (house d) ++ [("ground_truth_price", CFloat (ground_truth_price d))])%list.

Section Validation.
Context `{L : Libraries}.



End Validation.

(** ** The world: files and module globals *)

Definition FEEDBACK_PATH : string := "data/feedback_local".
Definition MODEL_PATH : string := "models/model.joblib".
Definition METRICS_PATH : string := "models/model_metrics.json".
Definition ERROR_THRESHOLD_MAPE : float := 0.15.
Definition MERGED_DATA_PATH : string := "data/interim/merged_data.csv".
Definition temp_path : string := "data/interim/temp_updated_merged_data.csv".

(** The directory [FEEDBACK_PATH]: its regular files by name, and the
    [archive] subdirectory when it exists. *)
Record FeedbackDir : Type := {
  entries : gmap string string;
  archive : option (gmap string string);
}.

Record World `{L : Libraries} : Type := {
  merged_data : option string;            (* data/interim/merged_data.csv *)
  temp_updated : option string;           (* temp_path *)
  feedback_local : option FeedbackDir;    (* FEEDBACK_PATH *)
  train_processed : option string;        (* data/processed/train_processed.csv *)
  test_processed : option string;         (* data/processed/test_processed.csv *)
  model_joblib : option string;           (* MODEL_PATH *)
  model_metrics_json : option string;     (* METRICS_PATH *)
  model : option Model;                   (* global model *)
  model_features : option (list string);  (* global model_features *)
  model_metrics : row;                    (* global model_metrics *)
}.

(** The outcome of writing a file: done, or an exception with what the
    path holds afterwards (nothing, the old content, a truncated file). *)
Inductive write_outcome : Type :=
| Written
| WriteFails (e : exn) (remains : option string).

(** The outcomes, during one request, of the system calls whose failure
    does not follow from the state of the modelled files. [None] is
    success. *)
Record Faults : Type := {
  temp_write : write_outcome;              (* updated_df.to_csv(temp_path) *)
  replace_fault : option exn;              (* os.replace(temp_path, merged_data) *)
  model_dump : write_outcome;              (* joblib.dump in train *)
  metrics_dump : write_outcome;            (* json.dump in train *)
  archive_makedirs_fault : option exn;     (* os.makedirs(archive_path) *)
  rename_fault : string -> option exn;     (* os.rename of a feedback file *)
  restore_write : write_outcome;           (* original_df.to_csv(merged_data) *)
  temp_remove_fault : option exn;          (* os.remove(temp_path) *)
  feedback_makedirs_fault : option exn;    (* os.makedirs(FEEDBACK_PATH) *)
  feedback_write : write_outcome;          (* open + json.dump in receive_feedback *)
}.

Definition no_faults : Faults :=
  {| temp_write := Written; replace_fault := None; model_dump := Written;
     metrics_dump := Written; archive_makedirs_fault := None;
     rename_fault := fun _ => None; restore_write := Written;
     temp_remove_fault := None;
     feedback_makedirs_fault := None; feedback_write := Written |}.

Inductive http (A : Type) : Type :=
| Response (a : A)
| HTTPException (status_code : Z) (detail : string).

Arguments Response {A} a.
Arguments HTTPException {A} status_code detail.

Section Api.
Context `{L : Libraries}.

Definition set_merged_data (v : option string) (w : World) : World :=
  {| merged_data := v; temp_updated := temp_updated w;
     feedback_local := feedback_local w; train_processed := train_processed w;
     test_processed := test_processed w; model_joblib := model_joblib w;
     model_metrics_json := model_metrics_json w; model := model w;
     model_features := model_features w; model_metrics := model_metrics w |}.

Definition set_temp_updated (v : option string) (w : World) : World :=
  {| merged_data := merged_data w; temp_updated := v;
     feedback_local := feedback_local w; train_processed := train_processed w;
     test_processed := test_processed w; model_joblib := model_joblib w;
     model_metrics_json := model_metrics_json w; model := model w;
     model_features := model_features w; model_metrics := model_metrics w |}.

Definition set_feedback_local (v : option FeedbackDir) (w : World) : World :=
  {| merged_data := merged_data w; temp_updated := temp_updated w;
     feedback_local := v; train_processed := train_processed w;
     test_processed := test_processed w; model_joblib := model_joblib w;
     model_metrics_json := model_metrics_json w; model := model w;
     model_features := model_features w; model_metrics := model_metrics w |}.

Definition set_model_joblib (v : option string) (w : World) : World :=
  {| merged_data := merged_data w; temp_updated := temp_updated w;
     feedback_local := feedback_local w; train_processed := train_processed w;
     test_processed := test_processed w; model_joblib := v;
     model_metrics_json := model_metrics_json w; model := model w;
     model_features := model_features w; model_metrics := model_metrics w |}.

Definition set_model_metrics_json (v : option string) (w : World) : World :=
  {| merged_data := merged_data w; temp_updated := temp_updated w;
     feedback_local := feedback_local w; train_processed := train_processed w;
     test_processed := test_processed w; model_joblib := model_joblib w;
     model_metrics_json := v; model := model w;
     model_features := model_features w; model_metrics := model_metrics w |}.

Definition set_model (v : option Model) (w : World) : World :=
  {| merged_data := merged_data w; temp_updated := temp_updated w;
     feedback_local := feedback_local w; train_processed := train_processed w;
     test_processed := test_processed w; model_joblib := model_joblib w;
     model_metrics_json := model_metrics_json w; model := v;
     model_features := model_features w; model_metrics := model_metrics w |}.

Definition set_model_features (v : option (list string)) (w : World) : World :=
  {| merged_data := merged_data w; temp_updated := temp_updated w;
     feedback_local := feedback_local w; train_processed := train_processed w;
     test_processed := test_processed w; model_joblib := model_joblib w;
     model_metrics_json := model_metrics_json w; model := model w;
     model_features := v; model_metrics := model_metrics w |}.

Definition set_model_metrics (v : row) (w : World) : World :=
  {| merged_data := merged_data w; temp_updated := temp_updated w;
     feedback_local := feedback_local w; train_processed := train_processed w;
     test_processed := test_processed w; model_joblib := model_joblib w;
     model_metrics_json := model_metrics_json w; model := model w;
     model_features := model_features w; model_metrics := v |}.

(** [open(path)] for reading. *)
Definition read_file (path : string) (content : option string) : result string :=
  match content with
  | Some s => Ok s
  | None => Raise ("FileNotFoundError: " ++ path)
  end.

(** *** [load_model_safely] *)

Definition metrics_not_found : row :=
  [("mae_usd_formatted", CStr "$ (Métricas não encontradas)")].

(** The [except] branch of [load_model_safely], entered with the
    globals as the [try] left them. *)
Definition load_failed (w : World) : bool * World :=
  let w := set_model_metrics metrics_not_found w in
  (match model w with None => false | Some _ => true end, w).

Definition load_model_safely (w : World) : bool * World :=
  match read_file MODEL_PATH (model_joblib w) ≫= joblib_load with
  | Raise _ => load_failed w
  | Ok m =>
      let w := set_model (Some m) w in
      match feature_names_in_ m with
      | Raise _ => load_failed w
      | Ok names =>
          let w := set_model_features (Some names) w in
          match read_file METRICS_PATH (model_metrics_json w) ≫= json_load with
          | Raise _ => load_failed w
          | Ok metrics => (true, set_model_metrics metrics w)
          end
      end
  end.

(** *** [train], from [train_model.py] *)

(** Only [FileNotFoundError] is caught around the two reads: [train]
    then logs and returns [None]. Every other exception leaves the
    function. [os.makedirs('models', exist_ok=True)] has no effect on
    the modelled files. *)
Definition train (io : Faults) (w : World) : result (option row) * World :=
  match train_processed w with
  | None => (Ok None, w)
  | Some train_csv =>
  match read_csv train_csv with
  | Raise e => (Raise e, w)
  | Ok train_df =>
  match test_processed w with
  | None => (Ok None, w)
  | Some test_csv =>
  match read_csv test_csv with
  | Raise e => (Raise e, w)
  | Ok test_df =>
  match search_and_score train_df test_df with
  | Raise e => (Raise e, w)
  | Ok (best_model, (r2_final, rmse_final_usd, mae_final_usd, mape)) =>
      let mape_final_pct := (mape * 100)%float in
      match model_dump io with
      | WriteFails e remains => (Raise e, set_model_joblib remains w)
      | Written =>
          let w := set_model_joblib (Some (joblib_dump best_model)) w in
          let metrics :=
            [ ("r2", CFloat r2_final); ("rmse_usd", CFloat rmse_final_usd);
              ("mae_usd", CFloat mae_final_usd); ("mape_pct", CFloat mape_final_pct);
              ("mae_usd_formatted", CStr (format_usd mae_final_usd)) ] in
          match metrics_dump io with
          | WriteFails e remains => (Raise e, set_model_metrics_json remains w)
          | Written => (Ok (Some metrics), set_model_metrics_json (Some (json_dump metrics)) w)
          end
      end
  end end end end end.

(** *** [/predict] *)

(** Lines 116-120 of [predict_price], repeated as lines 177-181 of
    [check_model_performance]: one dict to the price the model gives. *)
Definition predict_frame (model : option Model) (features : option (list string))
  (data : row) : result float :=
  df_processed ← engineer_features data;
  let df_final := fillna_zero (reindex features df_processed) in
  m ← match model with
      | Some m => Ok m
      | None => Raise "AttributeError: 'NoneType' object has no attribute 'predict'"
      end;
  prediction_log ← model_predict m df_final;
  Ok (expm1 prediction_log).

Definition predict_price (data : HouseData) (w : World) : http row :=
  match model w with
  | None => HTTPException 500 "Modelo não carregado. Tente /retrain."
  | Some _ =>
      match predict_frame (model w) (model_features w) (HouseData_dict data) with
      | Ok prediction_real_float =>
          let confidence_margin :=
            default (CStr "$ (Erro N/A)") (row_get "mae_usd_formatted" (model_metrics w)) in
          Response
            [ ("message", CStr "Predição realizada com sucesso.");
              ("predicted_price", CFloat prediction_real_float);
              ("predicted_price_usd", CStr (format_usd prediction_real_float));
              ("confidence_margin_usd", confidence_margin) ]
      | Raise e => HTTPException 500 ("Erro interno no servidor: " ++ e)
      end
  end.

(** *** [/feedback] *)

(** [pd.Timestamp.now()]. *)
Record Timestamp : Type := {
  ts_year : nat; ts_month : nat; ts_day : nat;
  ts_hour : nat; ts_minute : nat; ts_second : nat;
  ts_microsecond : nat;
}.

Definition pad (width : nat) (n : nat) : string :=
  let s := pretty n in
  Nat.iter (width - String.length s) (String "0") s.

(** [strftime("%Y%m%d%H%M%S")]. *)
Definition strftime (t : Timestamp) : string :=
  pad 4 (ts_year t) ++ pad 2 (ts_month t) ++ pad 2 (ts_day t) ++
  pad 2 (ts_hour t) ++ pad 2 (ts_minute t) ++ pad 2 (ts_second t).

(** The name, inside [FEEDBACK_PATH], of the file of a submission. *)
Definition feedback_name (now : Timestamp) (ident : Z) : string :=
  "feedback_" ++ strftime now ++ "_" ++ pretty ident ++ ".json".

Definition empty_dir : FeedbackDir := {| entries := ∅; archive := None |}.

Definition put_entry (name : string) (content : option string) (d : FeedbackDir) : FeedbackDir :=
  {| entries := match content with
                | Some s => <[name := s]> (entries d)
                | None => delete name (entries d)
                end;
     archive := archive d |}.

Definition receive_feedback (now : Timestamp) (io : Faults) (data : FeedbackData) (w : World)
  : http row * World :=
  match feedback_makedirs_fault io with
  | Some e => (HTTPException 500 "Internal Server Error", w)
  | None =>
      let dir := default empty_dir (feedback_local w) in
      let feedback_data := FeedbackData_dict data in
      let name := feedback_name now (id (house data)) in
      let file_name := path_join FEEDBACK_PATH name in
      match feedback_write io with
      | Written =>
          (Response [ ("message", CStr "Feedback recebido com sucesso!");
                      ("file", CStr file_name) ],
           set_feedback_local (Some (put_entry name (Some (json_dump feedback_data)) dir)) w)
      | WriteFails e remains =>
          (HTTPException 500 ("Erro ao salvar feedback: " ++ e),
           set_feedback_local (Some (put_entry name remains dir)) w)
      end
  end.

(** *** [/check-performance] *)

(** [os.listdir(FEEDBACK_PATH)], in the order the map enumerates its
    keys; the order of [os.listdir] is arbitrary. *)
Definition listdir (d : FeedbackDir) : list string :=
  (map fst (map_to_list (entries d)) ++
   match archive d with Some _ => ["archive"] | None => [] end)%list.

(** [[f for f in os.listdir(FEEDBACK_PATH) if f.endswith('.json')]]. *)
Definition json_files (d : FeedbackDir) : list string :=
  List.filter (fun f => endswith f ".json") (listdir d).

(** Lines 163-169 and 232-238: a file that cannot be opened or parsed
    is skipped with a warning. *)
Fixpoint load_feedback (d : FeedbackDir) (feedback_files : list string)
  (feedback_data : list row) : list row :=
  match feedback_files with
  | [] => feedback_data
  | filename :: rest =>
      match read_file (path_join FEEDBACK_PATH filename) (entries d !! filename)
            ≫= json_load with
      | Ok data => load_feedback d rest (feedback_data ++ [data])%list
      | Raise _ => load_feedback d rest feedback_data
      end
  end.

(** Lines 174-181: the loop that fills [y_true] and [y_pred]. *)
Fixpoint collect_predictions (model : option Model) (features : option (list string))
  (feedback_data : list row) (y_true : list cell) (y_pred : list float)
  : result (list cell * list float) :=
  match feedback_data with
  | [] => Ok (y_true, y_pred)
  | data :: rest =>
      truth ← getitem "ground_truth_price" data;
      price ← predict_frame model features data;
      collect_predictions model features rest (y_true ++ [truth])%list (y_pred ++ [price])%list
  end.

(** The JSON object [/check-performance] answers with; [new_metrics]
    is absent ([None]) or holds what the cycle returned, a dict or
    Python's [None]. *)
Record PerformanceReport : Type := {
  retrain_triggered : bool;
  message : string;
  current_mape_pct : option string;
  new_metrics : option (option row);
}.

Definition nothing_to_check (msg : string) : http PerformanceReport :=
  Response {| retrain_triggered := false; message := msg;
              current_mape_pct := None; new_metrics := None |}.

Definition stable_report (current_mape : float) : PerformanceReport :=
  {| retrain_triggered := false;
     message := "Erro (MAPE) de " ++ format_pct current_mape ++
                " está dentro do limite. Performance estável.";
     current_mape_pct := Some (format_pct current_mape);
     new_metrics := None |}.

Definition retrain_report (current_mape : float) (returned : option row) : PerformanceReport :=
  {| retrain_triggered := true;
     message := "Erro (MAPE) de " ++ format_pct current_mape ++
                " excedeu o limite. Retreino CONCLUÍDO!";
     current_mape_pct := Some (format_pct current_mape);
     new_metrics := Some returned |}.

Definition performance_error (e : exn) : http PerformanceReport :=
  HTTPException 500 ("Erro ao calcular performance: " ++ e).

(** Lines 156-187: everything [check_model_performance] does before it
    either answers or calls [run_full_retrain_cycle]. It reads the
    world and writes nothing. *)
Inductive evaluation : Type :=
| Answer (r : http PerformanceReport)
| Breach (current_mape : float).

Definition evaluate_performance (w : World) : evaluation :=
  match feedback_local w with
  | None => Answer (nothing_to_check "Nenhum dado de feedback para checar.")
  | Some dir =>
      match json_files dir with
      | [] => Answer (nothing_to_check "Nenhum dado de feedback para checar.")
      | feedback_files =>
          match load_feedback dir feedback_files [] with
          | [] => Answer (nothing_to_check "Dados de feedback vazios.")
          | feedback_data =>
              match '(y_true, y_pred) ←
                       collect_predictions (model w) (model_features w) feedback_data [] [];
                     mean_absolute_percentage_error y_true y_pred with
              | Raise e => Answer (performance_error e)
              | Ok current_mape =>
                  if PrimFloat.ltb ERROR_THRESHOLD_MAPE current_mape
                  then Breach current_mape
                  else Answer (Response (stable_report current_mape))
              end
          end
      end
  end.

(** *** [run_full_retrain_cycle] *)

Definition error_dict (msg : string) : option row := Some [("error", CStr msg)].

(** What the cycle holds on to from its start to its [finally]. *)
Record cycle_state : Type := {
  original_df : DataFrame;
  feedback_files : list string;
}.

(** Lines 221-244, up to the [try]: the cycle has returned or raised,
    or it has written the temporary file and enters the [try]. *)
Inductive started : Type :=
| Stopped (r : result (option row))
| Entered (c : cycle_state).

Definition cycle_begin (io : Faults) (w : World) : started * World :=
  match read_file MERGED_DATA_PATH (merged_data w) ≫= read_csv with
  | Raise _ => (Stopped (Ok (error_dict "Falha ao carregar dados originais.")), w)
  | Ok original =>
      match feedback_local w with
      | None => (Stopped (Raise ("FileNotFoundError: " ++ FEEDBACK_PATH)), w)
      | Some dir =>
          match json_files dir with
          | [] => (Stopped (Ok (error_dict "Nenhum feedback para treinar.")), w)
          | files =>
              let feedback_data := load_feedback dir files [] in
              let new_data_df :=
                rename_columns "ground_truth_price" "price"
                  (DataFrame_of_records feedback_data) in
              let updated_df := concat original new_data_df in
              match temp_write io with
              | WriteFails e remains => (Stopped (Raise e), set_temp_updated remains w)
              | Written =>
                  (Entered {| original_df := original; feedback_files := files |},
                   set_temp_updated (Some (to_csv updated_df)) w)
              end
          end
      end
  end.

(** Lines 258-259: [os.rename] of each listed file into [archive],
    replacing a file of that name there. *)
Fixpoint move_to_archive (io : Faults) (files : list string) (d : FeedbackDir)
  : result unit * FeedbackDir :=
  match files with
  | [] => (Ok tt, d)
  | filename :: rest =>
      match rename_fault io filename with
      | Some e => (Raise e, d)
      | None =>
          match entries d !! filename with
          | None =>
              (Raise ("FileNotFoundError: " ++ path_join FEEDBACK_PATH filename), d)
          | Some content =>
              move_to_archive io rest
                {| entries := delete filename (entries d);
                   archive := Some (<[filename := content]> (default ∅ (archive d))) |}
          end
      end
  end.

(** Lines 256-259. *)
Definition archive_feedback (io : Faults) (files : list string) (w : World)
  : result unit * World :=
  match archive_makedirs_fault io with
  | Some e => (Raise e, w)
  | None =>
      let dir := default empty_dir (feedback_local w) in
      let dir := {| entries := entries dir; archive := Some (default ∅ (archive dir)) |} in
      let '(r, dir) := move_to_archive io files dir in
      (r, set_feedback_local (Some dir) w)
  end.

(** Line 247, [os.replace(temp_path, merged_data)]: the canonical
    path takes the content of the temporary file, which is gone. *)
Definition cycle_replace (io : Faults) (w : World) : result unit * World :=
  match replace_fault io with
  | Some e => (Raise e, w)
  | None =>
      match temp_updated w with
      | None => (Raise ("FileNotFoundError: " ++ temp_path), w)
      | Some augmented => (Ok tt, set_temp_updated None (set_merged_data (Some augmented) w))
      end
  end.

(** Lines 251-265, with the [except Exception] of line 267 around
    them: train ([retrain_model] is [train], imported under that name),
    reload, archive. The value [train] returned is not looked at. *)
Definition cycle_retrain (io : Faults) (c : cycle_state) (w : World) : option row * World :=
  match train io w with
  | (Raise e, w) => (error_dict e, w)
  | (Ok new_metrics, w) =>
      match load_model_safely w with
      | (true, w) =>
          match archive_feedback io (feedback_files c) w with
          | (Raise e, w) => (error_dict e, w)
          | (Ok _, w) => (new_metrics, w)
          end
      | (false, w) => (error_dict "Falha ao recarregar o modelo.", w)
      end
  end.

(** Lines 246-269: the [try] with its [except Exception]; it always
    comes to a [return]. *)
Definition cycle_try (io : Faults) (c : cycle_state) (w : World) : option row * World :=
  match cycle_replace io w with
  | (Raise e, w) => (error_dict e, w)
  | (Ok _, w) => cycle_retrain io c w
  end.

(** Lines 270-274: the [finally]. An exception here replaces the
    pending [return]. *)
Definition cycle_finally (io : Faults) (c : cycle_state) (w : World) : result unit * World :=
  match restore_write io with
  | WriteFails e remains => (Raise e, set_merged_data remains w)
  | Written =>
      let w := set_merged_data (Some (to_csv (original_df c))) w in
      match temp_updated w with
      | None => (Ok tt, w)
      | Some _ =>
          match temp_remove_fault io with
          | Some e => (Raise e, w)
          | None => (Ok tt, set_temp_updated None w)
          end
      end
  end.

Definition run_full_retrain_cycle (io : Faults) (w : World) : result (option row) * World :=
  match cycle_begin io w with
  | (Stopped r, w) => (r, w)
  | (Entered c, w) =>
      let '(returned, w) := cycle_try io c w in
      match cycle_finally io c w with
      | (Ok _, w) => (Ok returned, w)
      | (Raise e, w) => (Raise e, w)
      end
  end.

Definition check_model_performance (io : Faults) (w : World)
  : http PerformanceReport * World :=
  match evaluate_performance w with
  | Answer r => (r, w)
  | Breach current_mape =>
      match run_full_retrain_cycle io w with
      | (Ok returned, w) => (Response (retrain_report current_mape returned), w)
      | (Raise e, w) => (performance_error e, w)
      end
  end.

(** *** Requests in progress

    [check_model_performance] is a plain [def] endpoint: the server
    runs each request on a thread of its pool, and the module holds no
    lock. A request in progress stands at one of the points below; a
    step of a request takes it to the next one, on the shared world. *)
Inductive request : Type :=
| Received
| Prepared (current_mape : float) (c : cycle_state)      (* before line 246 *)
| Replaced (current_mape : float) (c : cycle_state)      (* after line 247 *)
| Restoring (current_mape : float) (c : cycle_state) (returned : option row)  (* at line 270 *)
| Answered (r : http PerformanceReport).

Definition request_step (io : Faults) (rq : request) (w : World) : request * World :=
  match rq with
  | Received =>
      match evaluate_performance w with
      | Answer r => (Answered r, w)
      | Breach current_mape =>
          match cycle_begin io w with
          | (Stopped (Ok returned), w) =>
              (Answered (Response (retrain_report current_mape returned)), w)
          | (Stopped (Raise e), w) => (Answered (performance_error e), w)
          | (Entered c, w) => (Prepared current_mape c, w)
          end
      end
  | Prepared current_mape c =>
      match cycle_replace io w with
      | (Raise e, w) => (Restoring current_mape c (error_dict e), w)
      | (Ok _, w) => (Replaced current_mape c, w)
      end
  | Replaced current_mape c =>
      let '(returned, w) := cycle_retrain io c w in
      (Restoring current_mape c returned, w)
  | Restoring current_mape c returned =>
      match cycle_finally io c w with
      | (Ok _, w) => (Answered (Response (retrain_report current_mape returned)), w)
      | (Raise e, w) => (Answered (performance_error e), w)
      end
  | Answered r => (Answered r, w)
  end.

(** A retrain cycle is in flight: the request is past its evaluation
    and has not answered. *)
Definition in_flight (rq : request) : bool :=
  match rq with
  | Prepared _ _ | Replaced _ _ | Restoring _ _ _ => true
  | Received | Answered _ => false
  end.

(** The request has not started. *)
Definition received (rq : request) : bool :=
  match rq with Received => true | _ => false end.

(** The request has replaced the canonical dataset and not yet
    restored it. *)
Definition holds_dataset (rq : request) : bool :=
  match rq with
  | Replaced _ _ | Restoring _ _ _ => true
  | _ => false
  end.

(** Two requests on the server at once. *)
Record Server : Type := {
  world : World;
  first : request;
  second : request;
}.

Inductive thread : Type := T1 | T2.

(** One step of one of the two requests. *)
Definition server_step (io : Faults) (t : thread) (s : Server) : Server :=
  match t with
  | T1 => let '(rq, w) := request_step io (first s) (world s) in
          {| world := w; first := rq; second := second s |}
  | T2 => let '(rq, w) := request_step io (second s) (world s) in
          {| world := w; first := first s; second := rq |}
  end.

(** The server after the steps of a schedule. *)
Definition serve (io : Faults) (schedule : list thread) (s : Server) : Server :=
  fold_left (fun s t => server_step io t s) schedule s.

(** *** The request as FastAPI hands it to [predict_price] *)


(** ** What the specification says, in its words *)

(** The pending feedback records: the parsed [.json] files of
    [FEEDBACK_PATH] outside [archive]. *)
Definition pending_records (w : World) : list row :=
  match feedback_local w with
  | None => []
  | Some dir => load_feedback dir (json_files dir) []
  end.

(** Section 4.3, [evaluate]: each record's ground truth, the model's
    prediction for each record, aggregated as mean absolute percentage
    error. *)
Definition monitor_evaluate (w : World) (records : list row) : result float :=
  y_true ← mapM (M := result) (getitem "ground_truth_price") records;
  y_pred ← mapM (M := result) (predict_frame (model w) (model_features w)) records;
  mean_absolute_percentage_error y_true y_pred.


(** The same, with the cells that hold a missing value zeroed too. *)
Definition zero_missing (v : cell) : cell :=
  if isna v then match v with CFloat _ => CFloat 0 | _ => CInt 0 end else v.


(** The price of a response of [predict_price]. *)
Definition predicted_price (r : http row) : option cell :=
  match r with
  | Response body => row_get "predicted_price" body
  | HTTPException _ _ => None
  end.


(** Whether the cycle gets as far as line 254 with [load_model_safely]
    answering [True]: the only way into the branch that archives. *)
Definition reload_reported_success (io : Faults) (w : World) : bool :=
  match cycle_begin io w with
  | (Stopped _, _) => false
  | (Entered c, w) =>
      match cycle_replace io w with
      | (Raise _, _) => false
      | (Ok _, w) =>
          match train io w with
          | (Raise _, _) => false
          | (Ok _, w) => fst (load_model_safely w)
          end
      end
  end.

(** The evaluation found the threshold exceeded. *)
Definition breaches (e : evaluation) : bool :=
  match e with Breach _ => true | Answer _ => false end.

(** The cycle got as far as its [try]. *)
Definition enters (s : started) : bool :=
  match s with Entered _ => true | Stopped _ => false end.

(** The request was answered with a body, not with an error status. *)
Definition accepted {A} (r : http A) : bool :=
  match r with Response _ => true | HTTPException _ _ => false end.

(** The body of an answer. *)
Definition body_of {A} (r : http A) : option A :=
  match r with
  | Response body => Some body
  | HTTPException _ _ => None
  end.

(** The ["file"] of the answer of [receive_feedback]. *)
Definition stored_file (r : http row) : option cell :=
  match r with
  | Response body => row_get "file" body
  | HTTPException _ _ => None
  end.

(** Two arrival times within the same second. *)
Definition same_second (a b : Timestamp) : Prop :=
  ts_year a = ts_year b /\ ts_month a = ts_month b /\ ts_day a = ts_day b /\
  ts_hour a = ts_hour b /\ ts_minute a = ts_minute b /\ ts_second a = ts_second b.

(** The files of a feedback directory that count as pending. *)
Definition pending_files (w : World) : gmap string string :=
  match feedback_local w with
  | None => ∅
  | Some dir => filter (fun kv => endswith (fst kv) ".json" = true) (entries dir)
  end.

Definition archived_files (w : World) : gmap string string :=
  match feedback_local w with
  | None => ∅
  | Some dir => default ∅ (archive dir)
  end.

End Api.

(** ** A small implementation of the libraries

    Stand-ins that compute, for the concrete scenarios below: CSV text
    with comma-separated fields and a line terminator after every
    record, as [to_csv] writes it; documents and artifacts that load
    back to the value they were dumped from; a linear estimator; the
    mean absolute percentage error as scikit-learn defines it. *)
Module Toy.

Definition newline : ascii := ascii_of_nat 10.

(** [s.split(sep)]. *)
Fixpoint split_on (sep : ascii) (s : string) (current : string) : list string :=
  match s with
  | EmptyString => [current]
  | String c rest =>
      if Ascii.eqb c sep then current :: split_on sep rest EmptyString
      else split_on sep rest (current ++ String c EmptyString)
  end.

Definition join (sep : string) (parts : list string) : string := String.concat sep parts.

(** A table: its header and its records, every field as text. *)
Record Table : Type := { header : list string; records : list (list string) }.

(** The lines of a text; a line terminator at the very end opens no
    further line. *)
Definition text_lines (s : string) : list string :=
  let ls := split_on newline s EmptyString in
  match last ls with
  | Some EmptyString => removelast ls
  | _ => ls
  end.

Definition parse_csv (s : string) : result Table :=
  match text_lines s with
  | [] => Raise "EmptyDataError: No columns to parse from file"
  | h :: rest =>
      Ok {| header := split_on "," h EmptyString;
            records := map (fun l => split_on "," l EmptyString) rest |}
  end.

Definition print_csv (t : Table) : string :=
  String.concat EmptyString
    (map (fun fields => join "," fields ++ String newline EmptyString)
       (header t :: records t)).

Definition show_float (f : float) : string :=
  match Prim2SF f with
  | S754_zero _ => "0.0"
  | S754_infinity s => if s then "-inf" else "inf"
  | S754_nan => "nan"
  | S754_finite s m e =>
      (if s then "-" else "") ++
      (if (0 <=? e) then pretty (Z.pos m * 2 ^ e) ++ ".0"
       else if (Z.pos m mod 2 ^ (- e) =? 0) then pretty (Z.pos m / 2 ^ (- e)) ++ ".0"
       else pretty (Z.pos m) ++ "p" ++ pretty e)
  end.

Definition show_cell (v : cell) : string :=
  match v with
  | CInt z => pretty z
  | CFloat f => show_float f
  | CStr s => s
  | CDate (Some d) => pretty (year d) ++ "-" ++ pretty (month d) ++ "-" ++ pretty (day d)
  | CDate None => "NaT"
  end.

Definition field_text (r : row) (col : string) : string :=
  match row_get col r with Some v => show_cell v | None => EmptyString end.

Definition add_missing (cols more : list string) : list string :=
  (cols ++ List.filter (fun c => negb (existsb (String.eqb c) cols)) more)%list.

Definition frame_of_records (rs : list row) : Table :=
  let cols := fold_left (fun acc r => add_missing acc (columns r)) rs [] in
  {| header := cols; records := map (fun r => map (field_text r) cols) rs |}.

Definition rename_header (old new : string) (t : Table) : Table :=
  {| header := map (fun c => if String.eqb c old then new else c) (header t);
     records := records t |}.

(** The field of a record under a column of its table. *)
Fixpoint field_under (cols : list string) (fields : list string) (col : string) : string :=
  match cols, fields with
  | c :: cols, f :: fields => if String.eqb c col then f else field_under cols fields col
  | _, _ => EmptyString
  end.

(** [pd.concat([a, b], ignore_index=True, sort=False)]. *)
Definition append_tables (a b : Table) : Table :=
  let cols := add_missing (header a) (header b) in
  {| header := cols;
     records := (map (fun r => map (field_under (header a) r) cols) (records a) ++
                 map (fun r => map (field_under (header b) r) cols) (records b))%list |}.

Definition digit (c : ascii) : option Z :=
  let n := Z.of_nat (nat_of_ascii c) in
  if (48 <=? n) && (n <=? 57) then Some (n - 48) else None.

Fixpoint digits (s : string) (acc : Z) : option Z :=
  match s with
  | EmptyString => Some acc
  | String c rest => d ← digit c; digits rest (10 * acc + d)
  end.

(** Dates written [YYYYMMDD]; the empty string is [NaT]. *)
Definition parse_date (s : string) : result (option date) :=
  if String.eqb s EmptyString then Ok None
  else if negb (String.length s =? 8)%nat then Raise "DateParseError"
  else match digits (substring 0 4 s) 0, digits (substring 4 2 s) 0, digits (substring 6 2 s) 0 with
       | Some y, Some m, Some d => Ok (Some {| year := y; month := m; day := d |})
       | _, _, _ => Raise "DateParseError"
       end.

(** [x * (1 + x/2 * (1 + x/3 * ...))], the series of [exp x - 1]. *)
Fixpoint series (fuel : nat) (k : float) (x : float) : float :=
  match fuel with
  | O => 1
  | S fuel => 1 + x / k * series fuel (k + 1) x
  end.

Definition exp_minus_one (x : float) : float := x * series 60 2 x.

(** [x - x^2/2 + x^3/3 - ...], for [x] near zero. *)
Fixpoint log_series (fuel : nat) (k : float) (x : float) : float :=
  match fuel with
  | O => 1 / k
  | S fuel => 1 / k - x * log_series fuel (k + 1) x
  end.

Definition log_one_plus (x : float) : float := x * log_series 60 1 x.

Definition show_json (v : cell) : string :=
  match v with
  | CStr s => "'" ++ s ++ "'"
  | v => show_cell v
  end.

Definition print_document (r : row) : string :=
  "{" ++ join ", " (map (fun kv => "'" ++ fst kv ++ "': " ++ show_json (snd kv)) r) ++ "}".

(** A linear estimator on named features. *)
Record Linear : Type := {
  name : string;
  intercept : float;
  coefficients : list (string * float);
}.

Definition dump_artifact (m : Linear) : string := "joblib:" ++ name m.

Definition as_float (v : cell) : result float :=
  match v with
  | CInt z => Ok (Z2float z)
  | CFloat f => Ok f
  | _ => Raise "ValueError: DataFrame.dtypes for data must be int, float or bool"
  end.

Fixpoint coefficient (cs : list (string * float)) (col : string) : float :=
  match cs with
  | [] => 0
  | (c, k) :: rest => if String.eqb c col then k else coefficient rest col
  end.

Fixpoint linear_predict (m : Linear) (df : row) (acc : float) : result float :=
  match df with
  | [] => Ok acc
  | (c, v) :: rest => x ← as_float v; linear_predict m rest (acc + coefficient (coefficients m) c * x)
  end.

Definition eps : float := 0x1p-52.

(** [np.abs(y_pred - y_true) / np.maximum(np.abs(y_true), eps)],
    summed from the left. *)
Fixpoint percentage_errors (y_true : list cell) (y_pred : list float) (acc : float)
  : result float :=
  match y_true, y_pred with
  | [], [] => Ok acc
  | t :: y_true, p :: y_pred =>
      t ← as_float t;
      let scale := if PrimFloat.ltb (abs t) eps then eps else abs t in
      percentage_errors y_true y_pred (acc + abs (p - t) / scale)
  | _, _ => Raise "ValueError: inconsistent numbers of samples"
  end.

Definition mean_percentage_error (y_true : list cell) (y_pred : list float)
  : result float :=
  match y_true with
  | [] => Raise "ValueError: Found array with 0 sample(s)"
  | _ => total ← percentage_errors y_true y_pred 0;
         Ok (total / Z2float (Z.of_nat (length y_true)))%float
  end.

(** The estimator in service and the one a search comes back with. *)
Definition served : Linear :=
  {| name := "served"; intercept := 12; coefficients := [("bedrooms", 0.1%float)] |}.

Definition refitted : Linear :=
  {| name := "refitted"; intercept := 12.5; coefficients := [("bedrooms", 0.125%float)] |}.

(** An estimator on the one feature [sqft_per_room]. *)
Definition per_room : Linear :=
  {| name := "per_room"; intercept := 0; coefficients := [("sqft_per_room", 1%float)] |}.

Definition artifacts : list Linear := [served; refitted; per_room].

Definition load_artifact (s : string) : result Linear :=
  match List.find (fun m => String.eqb (dump_artifact m) s) artifacts with
  | Some m => Ok m
  | None => Raise "UnpicklingError"
  end.

Definition fit_and_score (train_df test_df : Table)
  : result (Linear * (float * float * float * float)) :=
  match records train_df, records test_df with
  | [], _ | _, [] => Raise "ValueError: Found array with 0 sample(s)"
  | _, _ => Ok (refitted, (0.875, 150000.5, 18000.25, 0.125)%float)
  end.

Definition a_house : HouseData :=
  {| id := 7129300520; date_ := "20141013T000000"; bedrooms := 3; bathrooms := 1;
     sqft_living := 1180; sqft_lot := 5650; floors := 1; waterfront := 0; view := 0;
     condition := 3; grade := 7; sqft_above := 1180; sqft_basement := 0;
     yr_built := 1955; yr_renovated := 0; zipcode := 98178; lat := 47.5;
     long := -122.25; Mean_Income := 60000; Education_Bachelors_or_Higher := 0.25;
     Population_Density := 3000 |}.

(** The served estimator prices [a_house] at [exp_minus_one 12.3], a little
    under 220,000. *)
Definition close_feedback : FeedbackData :=
  {| house := a_house; ground_truth_price := 221900 |}.

Definition far_feedback : FeedbackData :=
  {| house := a_house; ground_truth_price := 400000 |}.

Definition served_metrics : row :=
  [ ("r2", CFloat 0.75); ("rmse_usd", CFloat 160000); ("mae_usd", CFloat 20000);
    ("mape_pct", CFloat 14.5); ("mae_usd_formatted", CStr "$20,000.00") ].

Definition refitted_metrics : row :=
  [ ("r2", CFloat 0.875); ("rmse_usd", CFloat 150000.5); ("mae_usd", CFloat 18000.25);
    ("mape_pct", CFloat 12.5); ("mae_usd_formatted", CStr "$18000.25") ].

(** The documents that parse. *)
Definition documents : list row :=
  [ FeedbackData_dict close_feedback; FeedbackData_dict far_feedback;
    served_metrics; refitted_metrics ].

Definition parse_document (s : string) : result row :=
  match List.find (fun r => String.eqb (print_document r) s) documents with
  | Some r => Ok r
  | None => Raise "JSONDecodeError"
  end.

Definition libraries : Libraries :=
  {| DataFrame := Table;
     read_csv := parse_csv;
     to_csv := print_csv;
     DataFrame_of_records := frame_of_records;
     rename_columns := rename_header;
     concat := append_tables;
     to_datetime := parse_date;
     log1p := log_one_plus;
     expm1 := exp_minus_one;
     json_load := parse_document;
     json_dump := print_document;
     Model := Linear;
     joblib_load := load_artifact;
     joblib_dump := dump_artifact;
     feature_names_in_ := fun m => Ok (map fst (coefficients m));
     model_predict := fun m df => linear_predict m df (intercept m);
     mean_absolute_percentage_error := mean_percentage_error;
     search_and_score := fit_and_score;
     format_usd := fun x => "$" ++ show_float x;
     format_pct := fun x => show_float (x * 100) ++ "%";
     validate_int := fun v => match v with CInt z => Some z | _ => None end;
     validate_float := fun v => match v with
                                | CFloat f => Some f
                                | CInt z => Some (Z2float z)
                                | _ => None
                                end;
     validate_str := fun v => match v with CStr s => Some s | _ => None end |}.

End Toy.

(** ** Concrete scenarios *)
Module Scenario.
Import Toy.

#[local] Existing Instance libraries.

Definition nl : string := String newline EmptyString.

(** A canonical dataset as [to_csv] leaves it, and the same table
    without the terminator of its last line. *)
Definition dataset_csv : string :=
  "id,price,bedrooms" ++ nl ++ "1,221900.0,3" ++ nl.

Definition dataset_unterminated : string :=
  "id,price,bedrooms" ++ nl ++ "1,221900.0,3".

Definition processed_csv : string :=
  "bedrooms,log_price" ++ nl ++ "3,12.3" ++ nl.

(** A world with the served estimator loaded from its artifact. *)
Definition a_world (dataset : option string) (pending : gmap string string)
  (processed : option string) (artifact : option string) : World :=
  {| merged_data := dataset;
     temp_updated := None;
     feedback_local := Some {| entries := pending; archive := None |};
     train_processed := processed;
     test_processed := processed;
     model_joblib := artifact;
     model_metrics_json := Some (print_document served_metrics);
     model := Some served;
     model_features := Some ["bedrooms"];
     model_metrics := served_metrics |}.

Definition far_name : string := "feedback_20250105090307_7129300520.json".

Definition far_pending : gmap string string :=
  {[ far_name := print_document (FeedbackData_dict far_feedback) ]}.

Definition close_pending : gmap string string :=
  {[ far_name := print_document (FeedbackData_dict close_feedback) ]}.

(** Feedback 45% off the served prices; everything in place to retrain. *)
Definition breached : World :=
  a_world (Some dataset_csv) far_pending (Some processed_csv) (Some (dump_artifact served)).

(** Feedback within 1% of the served prices. *)
Definition stable : World :=
  a_world (Some dataset_csv) close_pending (Some processed_csv) (Some (dump_artifact served)).

(** As [breached], the dataset file lacking its last line terminator. *)
Definition unterminated : World :=
  a_world (Some dataset_unterminated) far_pending (Some processed_csv)
    (Some (dump_artifact served)).

(** As [breached], without the processed training files: [train] logs
    the missing files and returns [None]. *)
Definition untrainable : World :=
  a_world (Some dataset_csv) far_pending None (Some (dump_artifact served)).

(** As [untrainable], the artifact gone from the disk as well. *)
Definition unloadable : World :=
  a_world (Some dataset_csv) far_pending None None.

(** Two arrivals within one second. *)
Definition arrival_1 : Timestamp :=
  {| ts_year := 2025; ts_month := 1; ts_day := 5; ts_hour := 9; ts_minute := 3;
     ts_second := 7; ts_microsecond := 120 |}.

Definition arrival_2 : Timestamp :=
  {| ts_year := 2025; ts_month := 1; ts_day := 5; ts_hour := 9; ts_minute := 3;
     ts_second := 7; ts_microsecond := 870 |}.

Definition empty_store : World :=
  a_world (Some dataset_csv) ∅ (Some processed_csv) (Some (dump_artifact served)).

(** A record that validates, with finite fields, whose engineered
    [sqft_per_room] is [0 / 0]. *)
Definition no_rooms : HouseData :=
  {| id := 1; date_ := "20141013T000000"; bedrooms := 0; bathrooms := -1e-6;
     sqft_living := 0; sqft_lot := 5650; floors := 1; waterfront := 0; view := 0;
     condition := 3; grade := 7; sqft_above := 0; sqft_basement := 0;
     yr_built := 1955; yr_renovated := 0; zipcode := 98178; lat := 47.5;
     long := -122.25; Mean_Income := 60000; Education_Bachelors_or_Higher := 0.25;
     Population_Density := 3000 |}.


(** Both requests received, none started. *)
Definition two_requests : Server :=
  {| world := breached; first := Received; second := Received |}.

End Scenario.

(** ** Selecting columns by a list of labels *)

(** [df[names]]: under each label of the list, in the list's order,
    every column of the frame that carries it; a [KeyError] when a
    label names no column. *)
Fixpoint getitem_columns (names : list string) (df : row) : result row :=
  match names with
  | [] => Ok []
  | c :: rest =>
      match List.filter (fun cv => String.eqb (fst cv) c) df with
      | [] => Raise ("KeyError: " ++ c)
      | found => selected ← getitem_columns rest df; Ok (found ++ selected)%list
      end
  end.

(** ** The script predictor: [src/models/predict_model.py] *)

Section Predictor.
Context `{L : Libraries}.

Definition MODEL_FILE : string := path_join "models" "model.joblib".

(** Lines 31-43: the module's [model] and [model_features] after the
    load at import. When [feature_names_in_] raises, [model] has been
    assigned and [model_features] has not. *)
Definition load_predictor (artifact : option string)
  : option Model * option (list string) :=
  match read_file MODEL_FILE artifact ≫= joblib_load with
  | Raise _ => (None, None)
  | Ok m =>
      match feature_names_in_ m with
      | Ok names => (Some m, Some names)
      | Raise _ => (Some m, None)
      end
  end.

Definition not_ready : row :=
  [("error", CStr "Serviço de predição não está pronto.")].

(** [make_prediction], with the two globals it reads; the import of
    [engineer_features] at the head of the module is taken to have
    succeeded. It returns a dict in every case: the [except Exception]
    of line 86 turns what the body raises into [{"error": str(e)}]. *)
Definition make_prediction (model : option Model) (model_features : option (list string))
  (input_data_dict : row) : row :=
  match model with
  | None => not_ready
  | Some m =>
      match df_processed ← engineer_features input_data_dict;
            let df_final := fillna_zero (reindex model_features df_processed) in
            selected ← match model_features with
                       | Some names => getitem_columns names df_final
                       | None => Raise "KeyError: None"
                       end;
            prediction_log ← model_predict m selected;
            Ok (expm1 prediction_log) with
      | Ok prediction_real =>
          [ ("predicted_price_usd", CStr (format_usd prediction_real));
            ("predicted_price", CFloat prediction_real) ]
      | Raise e => [("error", CStr e)]
      end
  end.

End Predictor.

(** ** The final columns: [run_build_features] *)

Definition TARGET : string := "log_price".

Definition excluded_cols : list string :=
  ["price"; "log_price"; "id"; "date"; "date_dt"; "yr_built"; "yr_renovated"].

(** [col in cols]. *)
Definition member (col : string) (cols : list string) : bool :=
  existsb (String.eqb col) cols.

(** Line 99. *)
Definition cols_to_drop (cols : list string) : list string :=
  List.filter (fun col => member col cols) excluded_cols.

(** Line 102. *)
Definition FEATURES (cols : list string) : list string :=
  List.filter (fun col => negb (member col (cols_to_drop cols))) cols.

(** Line 105. *)
Definition final_cols (cols : list string) : list string :=
  (FEATURES cols ++ [TARGET])%list.

Section BuildFeatures.
Context `{L : Libraries}.

(** Lines 87-106 of [run_build_features], on a frame of one row: the
    engineered frame, cut down to the features and the target, missing
    values zeroed. The split and the two files written from it are
    outside the model. *)
Definition build_features_frame (df : row) : result row :=
  df_processed ← engineer_features df;
  df_final ← getitem_columns (final_cols (columns df_processed)) df_processed;
  Ok (fillna_zero df_final).

End BuildFeatures.

(** ** Notions the statements use *)

(** A value NumPy's arithmetic accepts. *)
Definition is_number (v : cell) : bool :=
  match v with CInt _ | CFloat _ => true | _ => false end.


(** The columns [engineer_features] assigns. *)
Definition engineered_columns : list string :=
  [ "log_price"; "date_dt"; "house_age"; "time_since_renovation"; "was_renovated";
    "total_rooms"; "sqft_per_room" ].

Section Notions.
Context `{L : Libraries}.

(** The year of analysis of a frame: the year of its date, 2015 when
    it has no date that converts. *)
Definition date_year (df : row) : Z :=
  match row_get "date" df with
  | Some (CStr s) =>
      match to_datetime (before_T s) with
      | Ok (Some d) => year d
      | _ => 2015
      end
  | _ => 2015
  end.

(** One turn of the loops of lines 164-169 and 233-238: the record of
    a file, if it opens and parses. *)
Definition feedback_record (d : FeedbackDir) (filename : string) : option row :=
  match read_file (path_join FEEDBACK_PATH filename) (entries d !! filename)
        ≫= json_load with
  | Ok data => Some data
  | Raise _ => None
  end.

End Notions.

(** ** Further scenarios *)
Module Cases.
Import Toy.

#[local] Existing Instance libraries.

(** One sale of the merged data, with its price. *)
Definition a_sale : row :=
  [ ("id", CInt 7129300520); ("date", CStr "20141013T000000"); ("price", CFloat 221900);
    ("bedrooms", CInt 3); ("bathrooms", CFloat 1); ("sqft_living", CInt 1180);
    ("yr_built", CInt 1955); ("yr_renovated", CInt 1991); ("zipcode", CInt 98178);
    ("Mean_Income", CFloat nan) ].

(** The frame [engineer_features] makes of [a_sale], and the frame
    [run_build_features] keeps of it. *)
Definition sale_vector : row :=
  Eval vm_compute in
    match engineer_features a_sale with Ok v => v | Raise _ => [] end.

Definition processed_sale : row :=
  Eval vm_compute in
    match build_features_frame a_sale with Ok v => v | Raise _ => [] end.

(** A record for another house. *)
Definition other_feedback : FeedbackData :=
  {| house := Scenario.no_rooms; ground_truth_price := 100000 |}.

(** A file of the feedback directory that is no JSON document. *)
Definition broken_name : string := "feedback_20250105090308_1.json".

Definition broken_content : string := "{'id': 1, ".

(** A pending file that parses to a document without a ground truth. *)
Definition stray_pending : gmap string string :=
  {[ "metrics.json" := print_document served_metrics ]}.

Definition stray : World :=
  Scenario.a_world (Some Scenario.dataset_csv) stray_pending (Some Scenario.processed_csv)
    (Some (dump_artifact served)).

(** A server that started without an artifact, with feedback pending. *)
Definition no_model : World :=
  {| merged_data := Some Scenario.dataset_csv;
     temp_updated := None;
     feedback_local := Some {| entries := Scenario.far_pending; archive := None |};
     train_processed := Some Scenario.processed_csv;
     test_processed := Some Scenario.processed_csv;
     model_joblib := None;
     model_metrics_json := None;
     model := None;
     model_features := None;
     model_metrics := metrics_not_found |}.

(** A process that has just started, the artifact of the served
    estimator on the disk. *)
Definition at_startup : World :=
  {| merged_data := Some Scenario.dataset_csv;
     temp_updated := None;
     feedback_local := None;
     train_processed := Some Scenario.processed_csv;
     test_processed := Some Scenario.processed_csv;
     model_joblib := Some (dump_artifact served);
     model_metrics_json := None;
     model := None;
     model_features := None;
     model_metrics := [] |}.

(** As [Scenario.breached], the processed files holding a header and
    no record: the search raises. *)
Definition header_only : string := "bedrooms,log_price" ++ Scenario.nl.

Definition empty_training : World :=
  Scenario.a_world (Some Scenario.dataset_csv) Scenario.far_pending (Some header_only)
    (Some (dump_artifact served)).

(** As [Scenario.breached], without the canonical dataset. *)
Definition no_dataset : World :=
  Scenario.a_world None Scenario.far_pending (Some Scenario.processed_csv)
    (Some (dump_artifact served)).

(** The restoring write of the [finally] fails, leaving an empty file. *)
Definition disk_full : Faults :=
  {| temp_write := Written; replace_fault := None; model_dump := Written;
     metrics_dump := Written; archive_makedirs_fault := None;
     rename_fault := fun _ => None;
     restore_write := WriteFails "OSError: [Errno 28] No space left on device"
                        (Some EmptyString);
     temp_remove_fault := None;
     feedback_makedirs_fault := None; feedback_write := Written |}.

(** The metrics [train] builds from the scores of [fit_and_score]. *)
Definition trained_metrics : row :=
  [ ("r2", CFloat 0.875); ("rmse_usd", CFloat 150000.5); ("mae_usd", CFloat 18000.25);
    ("mape_pct", CFloat (0.125 * 100)); ("mae_usd_formatted", CStr ("$" ++ show_float 18000.25)) ].

(** The libraries of [Toy], with a [json.load] that reads the metrics
    document of a training run as well. *)
Definition parse_any_document (s : string) : result row :=
  match List.find (fun r => String.eqb (print_document r) s) (trained_metrics :: documents) with
  | Some r => Ok r
  | None => Raise "JSONDecodeError"
  end.

Definition reading_metrics : Libraries :=
  {| DataFrame := Table;
     read_csv := parse_csv;
     to_csv := print_csv;
     DataFrame_of_records := frame_of_records;
     rename_columns := rename_header;
     concat := append_tables;
     to_datetime := parse_date;
     log1p := log_one_plus;
     expm1 := exp_minus_one;
     json_load := parse_any_document;
     json_dump := print_document;
     Model := Linear;
     joblib_load := load_artifact;
     joblib_dump := dump_artifact;
     feature_names_in_ := fun m => Ok (map fst (coefficients m));
     model_predict := fun m df => linear_predict m df (intercept m);
     mean_absolute_percentage_error := mean_percentage_error;
     search_and_score := fit_and_score;
     format_usd := fun x => "$" ++ show_float x;
     format_pct := fun x => show_float (x * 100) ++ "%";
     validate_int := fun v => match v with CInt z => Some z | _ => None end;
     validate_float := fun v => match v with
                                | CFloat f => Some f
                                | CInt z => Some (Z2float z)
                                | _ => None
                                end;
     validate_str := fun v => match v with CStr s => Some s | _ => None end |}.

(** A server started without an artifact, the processed files in
    place, under these libraries. *)
Definition untrained : @World reading_metrics :=
  {| merged_data := Some Scenario.dataset_csv;
     temp_updated := None;
     feedback_local := None;
     train_processed := Some Scenario.processed_csv;
     test_processed := Some Scenario.processed_csv;
     model_joblib := None;
     model_metrics_json := None;
     model := None;
     model_features := None;
     model_metrics := metrics_not_found |}.

(** An estimator fitted on an array without column labels:
    scikit-learn sets no [feature_names_in_] on it, and reading the
    attribute raises. *)
Definition unlabelled : Linear :=
  {| name := "unlabelled"; intercept := 12.5; coefficients := [("bedrooms", 0.125%float)] |}.

Definition load_any_artifact (s : string) : result Linear :=
  match List.find (fun m => String.eqb (dump_artifact m) s) (unlabelled :: artifacts) with
  | Some m => Ok m
  | None => Raise "UnpicklingError"
  end.

Definition labels_of (m : Linear) : result (list string) :=
  if String.eqb (name m) (name unlabelled)
  then Raise "AttributeError: 'XGBRegressor' object has no attribute 'feature_names_in_'"
  else Ok (map fst (coefficients m)).

(** The libraries of [Toy], with a [joblib.load] that reads the
    artifact of [unlabelled] as well. *)
Definition unlabelled_artifacts : Libraries :=
  {| DataFrame := Table;
     read_csv := parse_csv;
     to_csv := print_csv;
     DataFrame_of_records := frame_of_records;
     rename_columns := rename_header;
     concat := append_tables;
     to_datetime := parse_date;
     log1p := log_one_plus;
     expm1 := exp_minus_one;
     json_load := parse_document;
     json_dump := print_document;
     Model := Linear;
     joblib_load := load_any_artifact;
     joblib_dump := dump_artifact;
     feature_names_in_ := labels_of;
     model_predict := fun m df => linear_predict m df (intercept m);
     mean_absolute_percentage_error := mean_percentage_error;
     search_and_score := fit_and_score;
     format_usd := fun x => "$" ++ show_float x;
     format_pct := fun x => show_float (x * 100) ++ "%";
     validate_int := fun v => match v with CInt z => Some z | _ => None end;
     validate_float := fun v => match v with
                                | CFloat f => Some f
                                | CInt z => Some (Z2float z)
                                | _ => None
                                end;
     validate_str := fun v => match v with CStr s => Some s | _ => None end |}.

(** The triple of [served] in memory; on the disk the artifact of
    [unlabelled] and the metrics of the new version. *)
Definition replaced_artifact : @World unlabelled_artifacts :=
  {| merged_data := Some Scenario.dataset_csv;
     temp_updated := None;
     feedback_local := None;
     train_processed := None;
     test_processed := None;
     model_joblib := Some (dump_artifact unlabelled);
     model_metrics_json := Some (print_document refitted_metrics);
     model := Some (served : @Model unlabelled_artifacts);
     model_features := Some ["bedrooms"];
     model_metrics := served_metrics |}.

End Cases.

(** * Properties *)

Section Proofs.
Context `{L : Libraries}.

Ltac break_matches :=
  repeat match goal with
         | |- context [match ?x with _ => _ end] => destruct x eqn:?; cbn
         end.

(** ** Floats *)

Lemma SFcompare_swap x y :
  SFcompare y x = match SFcompare x y with Some c => Some (CompOpp c) | None => None end.
Proof.
  destruct x as [s1|s1| |s1 m1 e1], y as [s2|s2| |s2 m2 e2]; simpl; try reflexivity;
    try (destruct s1; reflexivity); try (destruct s2; reflexivity);
    try (destruct s1, s2; reflexivity).
  destruct s1, s2; simpl; try reflexivity.
  - rewrite (Z.compare_antisym e1 e2). destruct (e1 ?= e2)%Z; simpl; try reflexivity.
    rewrite (Pos.compare_cont_antisym m1 m2 Eq). reflexivity.
  - rewrite (Z.compare_antisym e1 e2). destruct (e1 ?= e2)%Z; simpl; try reflexivity.
    rewrite (Pos.compare_cont_antisym m1 m2 Eq). simpl.
    destruct (Pos.compare_cont Eq m1 m2); reflexivity.
Qed.

(** [a <= b] excludes [b < a], NaN included. *)
Lemma leb_not_gt (a b : float) : PrimFloat.leb a b = true -> PrimFloat.ltb b a = false.
Proof.
  rewrite leb_spec, ltb_spec. unfold SFleb, SFltb.
  rewrite (SFcompare_swap (Prim2SF a) (Prim2SF b)).
  destruct (SFcompare (Prim2SF a) (Prim2SF b)) as [[]|]; simpl; congruence.
Qed.

(** ** Strings *)

Lemma append_cons c s t : String c s ++ t = String c (s ++ t).
Proof. reflexivity. Qed.

Lemma substring_all s : substring 0 (String.length s) s = s.
Proof. induction s as [|c s IH]; simpl; [reflexivity|]. f_equal. exact IH. Qed.

Lemma substring_skip s t n : substring (String.length s) n (s ++ t) = substring 0 n t.
Proof. induction s as [|c s IH]; [reflexivity|]. rewrite append_cons. exact IH. Qed.

Lemma length_append s t : String.length (s ++ t) = (String.length s + String.length t)%nat.
Proof.
  induction s as [|c s IH]; [reflexivity|].
  rewrite append_cons. simpl. f_equal. exact IH.
Qed.

Lemma append_assoc s t u : (s ++ t) ++ u = s ++ (t ++ u).
Proof.
  induction s as [|c s IH]; [reflexivity|].
  rewrite !append_cons. f_equal. exact IH.
Qed.

Lemma endswith_app s suffix : endswith (s ++ suffix) suffix = true.
Proof.
  unfold endswith. rewrite length_append.
  replace (String.length s + String.length suffix - String.length suffix)%nat
    with (String.length s) by lia.
  rewrite substring_skip, substring_all, String.eqb_refl, andb_true_r.
  apply Nat.leb_le. lia.
Qed.

Lemma strftime_same_second a b : same_second a b -> strftime a = strftime b.
Proof.
  unfold same_second, strftime. intros (-> & -> & -> & -> & -> & ->). reflexivity.
Qed.

Lemma feedback_name_json now ident : endswith (feedback_name now ident) ".json" = true.
Proof. unfold feedback_name. rewrite <- !append_assoc. apply endswith_app. Qed.

(** ** Rows *)

Lemma row_get_set_ne col col' v df :
  col <> col' -> row_get col' (row_set col v df) = row_get col' df.
Proof.
  intros Hne. induction df as [|[c x] rest IH]; cbn.
  - destruct (String.eqb_spec col col'); [contradiction|reflexivity].
  - destruct (String.eqb_spec c col) as [->|Hc]; cbn.
    + destruct (String.eqb_spec col col'); [contradiction|reflexivity].
    + rewrite IH. reflexivity.
Qed.

Lemma row_get_set_eq col v df : row_get col (row_set col v df) = Some v.
Proof.
  induction df as [|[c x] rest IH]; cbn.
  - rewrite String.eqb_refl. reflexivity.
  - destruct (String.eqb_spec c col) as [->|Hc]; cbn.
    + rewrite String.eqb_refl. reflexivity.
    + destruct (String.eqb_spec c col); [contradiction|]. exact IH.
Qed.

(** ** The performance check *)

Lemma mapM_cons_ok {A B} (f : A -> result B) x l :
  is_ok (mapM f (x :: l)) = is_ok (f x) && is_ok (mapM f l).
Proof.
  cbn [mapM]. destruct (f x) as [y|e]; [|reflexivity].
  cbn. destruct (mapM f l); reflexivity.
Qed.

(** The loop of lines 174-181 appends, record by record, what the two
    maps of the monitor give. *)
Lemma collect_predictions_ok m fs recs : forall yt yp ts ps,
  mapM (getitem "ground_truth_price") recs = Ok ts ->
  mapM (predict_frame m fs) recs = Ok ps ->
  collect_predictions m fs recs yt yp = Ok ((yt ++ ts)%list, (yp ++ ps)%list).
Proof.
  induction recs as [|data rest IH]; intros yt yp ts ps Ht Hp.
  - cbn in Ht, Hp. injection Ht as <-. injection Hp as <-.
    cbn. rewrite !app_nil_r. reflexivity.
  - cbn [mapM] in Ht, Hp. cbn [collect_predictions].
    destruct (getitem "ground_truth_price" data) as [t|]; [|discriminate].
    destruct (predict_frame m fs data) as [p|]; [|discriminate].
    cbn in Ht, Hp |- *.
    destruct (mapM (getitem "ground_truth_price") rest) as [ts'|]; [|discriminate].
    destruct (mapM (predict_frame m fs) rest) as [ps'|]; [|discriminate].
    cbn in Ht, Hp. injection Ht as <-. injection Hp as <-.
    rewrite (IH _ _ ts' ps' eq_refl eq_refl). rewrite <- !app_assoc. reflexivity.
Qed.

(** The loop raises exactly when one of the two maps does. *)
Lemma collect_predictions_is_ok m fs recs : forall yt yp,
  is_ok (collect_predictions m fs recs yt yp) =
  is_ok (mapM (getitem "ground_truth_price") recs) && is_ok (mapM (predict_frame m fs) recs).
Proof.
  induction recs as [|data rest IH]; intros yt yp.
  - reflexivity.
  - rewrite !mapM_cons_ok. cbn [collect_predictions].
    destruct (getitem "ground_truth_price" data) as [t|]; [|reflexivity].
    destruct (predict_frame m fs data) as [p|]; cbn.
    + apply IH.
    + rewrite andb_false_r. reflexivity.
Qed.

(** The metric the code computes is the one of the monitor. *)
Lemma code_metric_is_monitor w recs :
  match monitor_evaluate w recs with
  | Ok metric =>
      ('(y_true, y_pred) ← collect_predictions (model w) (model_features w) recs [] [];
       mean_absolute_percentage_error y_true y_pred) = Ok metric
  | Raise _ =>
      is_ok ('(y_true, y_pred) ← collect_predictions (model w) (model_features w) recs [] [];
             mean_absolute_percentage_error y_true y_pred) = false
  end.
Proof.
  unfold monitor_evaluate.
  pose proof (collect_predictions_ok (model w) (model_features w) recs [] []) as Hok.
  pose proof (collect_predictions_is_ok (model w) (model_features w) recs [] []) as His.
  destruct (mapM (getitem "ground_truth_price") recs) as [ts|e1].
  - destruct (mapM (predict_frame (model w) (model_features w)) recs) as [ps|e2].
    + rewrite (Hok ts ps eq_refl eq_refl). cbn.
      destruct (mean_absolute_percentage_error ts ps); reflexivity.
    + cbn in His |- *.
      destruct (collect_predictions _ _ recs [] []); [discriminate|reflexivity].
  - cbn in His |- *.
    destruct (collect_predictions _ _ recs [] []); [discriminate|reflexivity].
Qed.

Lemma evaluate_performance_nothing w :
  pending_records w = [] ->
  exists msg, evaluate_performance w = Answer (nothing_to_check msg).
Proof.
  unfold pending_records, evaluate_performance. intros H.
  destruct (feedback_local w) as [dir|]; [|eauto].
  destruct (json_files dir) as [|f fs]; [eauto|].
  rewrite H. eauto.
Qed.

Lemma evaluate_performance_pending w :
  pending_records w <> [] ->
  evaluate_performance w =
    match '(y_true, y_pred) ←
             collect_predictions (model w) (model_features w) (pending_records w) [] [];
           mean_absolute_percentage_error y_true y_pred with
    | Raise e => Answer (performance_error e)
    | Ok current_mape =>
        if PrimFloat.ltb ERROR_THRESHOLD_MAPE current_mape
        then Breach current_mape
        else Answer (Response (stable_report current_mape))
    end.
Proof.
  unfold pending_records, evaluate_performance. intros H.
  destruct (feedback_local w) as [dir|]; [|congruence].
  destruct (json_files dir) as [|f fs]; [cbn in H; congruence|].
  destruct (load_feedback dir (f :: fs) []) as [|r rs]; [congruence|].
  reflexivity.
Qed.

Lemma evaluate_performance_ext w w' :
  feedback_local w' = feedback_local w -> model w' = model w ->
  model_features w' = model_features w ->
  evaluate_performance w' = evaluate_performance w.
Proof. unfold evaluate_performance. intros -> -> ->. reflexivity. Qed.


(** C6. When no feedback is pending, or the aggregate error over the
    pending feedback is at most the threshold, [check_model_performance]
    answers [retrain_triggered = false] and leaves the world, the
    canonical dataset in it, exactly as it was. *)
Theorem no_breach_leaves_dataset io w :
  (pending_records w = [] \/
   exists metric, monitor_evaluate w (pending_records w) = Ok metric /\
                  PrimFloat.leb metric ERROR_THRESHOLD_MAPE = true) ->
  exists report w',
    check_model_performance io w = (Response report, w') /\
    retrain_triggered report = false /\
    merged_data w' = merged_data w /\ w' = w.
Proof.
  intros H. unfold check_model_performance.
  destruct (pending_records w) as [|r rs] eqn:Hrecs.
  - destruct (evaluate_performance_nothing w Hrecs) as [msg ->].
    unfold nothing_to_check. eauto 10.
  - destruct H as [H|(metric & Hmetric & Hle)]; [discriminate|].
    assert (pending_records w <> []) as Hne by congruence.
    rewrite (evaluate_performance_pending w Hne).
    pose proof (code_metric_is_monitor w (pending_records w)) as Hm.
    rewrite Hrecs in Hm |- *. rewrite Hmetric in Hm. rewrite Hm.
    rewrite (leb_not_gt _ _ Hle). unfold stable_report. eauto 10.
Qed.

(** ** What each step of the cycle leaves alone *)

Lemma train_frame io w :
  let w' := snd (train io w) in
  merged_data w' = merged_data w /\ temp_updated w' = temp_updated w /\
  feedback_local w' = feedback_local w /\ model w' = model w /\
  model_features w' = model_features w /\ model_metrics w' = model_metrics w.
Proof. unfold train. break_matches; auto 10. Qed.

Lemma load_model_safely_files w :
  let w' := snd (load_model_safely w) in
  merged_data w' = merged_data w /\ temp_updated w' = temp_updated w /\
  feedback_local w' = feedback_local w.
Proof. unfold load_model_safely, load_failed. break_matches; auto. Qed.

(** A load that answers [False] found no estimator and left none. *)
Lemma load_model_safely_false w :
  fst (load_model_safely w) = false ->
  model (snd (load_model_safely w)) = model w /\
  model_features (snd (load_model_safely w)) = model_features w.
Proof.
  unfold load_model_safely, load_failed.
  destruct (read_file MODEL_PATH (model_joblib w) ≫= joblib_load) as [m|e]; cbn.
  - destruct (feature_names_in_ m); cbn; [|discriminate].
    destruct (read_file METRICS_PATH (model_metrics_json w) ≫= json_load); cbn; discriminate.
  - auto.
Qed.

Lemma cycle_begin_frame io w :
  let w' := snd (cycle_begin io w) in
  merged_data w' = merged_data w /\ feedback_local w' = feedback_local w /\
  model w' = model w /\ model_features w' = model_features w /\
  model_metrics w' = model_metrics w.
Proof. unfold cycle_begin. break_matches; auto 10. Qed.

Lemma cycle_replace_frame io w :
  let w' := snd (cycle_replace io w) in
  feedback_local w' = feedback_local w /\ model w' = model w /\
  model_features w' = model_features w /\ model_metrics w' = model_metrics w.
Proof. unfold cycle_replace. break_matches; auto 10. Qed.

Lemma cycle_finally_frame io c w :
  let w' := snd (cycle_finally io c w) in
  feedback_local w' = feedback_local w /\ model w' = model w /\
  model_features w' = model_features w /\ model_metrics w' = model_metrics w.
Proof. unfold cycle_finally. break_matches; auto 10. Qed.

Lemma archive_feedback_frame io files w :
  let w' := snd (archive_feedback io files w) in
  merged_data w' = merged_data w /\ temp_updated w' = temp_updated w /\
  model w' = model w /\ model_features w' = model_features w /\
  model_metrics w' = model_metrics w.
Proof.
  unfold archive_feedback. destruct (archive_makedirs_fault io); cbn; [auto 10|].
  destruct (move_to_archive io files _); cbn. auto 10.
Qed.

(** What [cycle_begin] has read when it enters the [try]. *)
Lemma cycle_begin_entered io w c w1 :
  cycle_begin io w = (Entered c, w1) ->
  exists content dir,
    merged_data w = Some content /\ read_csv content = Ok (original_df c) /\
    feedback_local w = Some dir /\ feedback_files c = json_files dir /\
    json_files dir <> [] /\ temp_write io = Written /\
    w1 = set_temp_updated
           (Some (to_csv (concat (original_df c)
                            (rename_columns "ground_truth_price" "price"
                               (DataFrame_of_records
                                  (load_feedback dir (json_files dir) [])))))) w.
Proof.
  unfold cycle_begin, read_file. intros H.
  destruct (merged_data w) as [content|]; cbn in H; [|discriminate].
  destruct (read_csv content) as [original|] eqn:Hread; cbn in H; [|discriminate].
  destruct (feedback_local w) as [dir|]; [|discriminate].
  destruct (json_files dir) as [|f fs] eqn:Hfiles; [discriminate|].
  destruct (temp_write io); [|discriminate].
  injection H as <- <-. exists content, dir. cbn. rewrite Hfiles.
  repeat split; try reflexivity; try assumption. discriminate.
Qed.

(** ** The dataset at the end of a cycle *)

(** C1, amended. A cycle that stops before its [try] never writes the
    canonical dataset. A cycle that enters the [try], and whose
    [finally] does not itself fail, ends with the canonical dataset
    holding [to_csv] of the frame that [read_csv] made of the pre-cycle
    content, and without the temporary file; the content is then
    byte-identical to the pre-cycle content whenever that content is
    what [to_csv] writes for its own parse. *)
Theorem cycle_end_restores_parsed_dataset io w :
  restore_write io = Written ->
  temp_remove_fault io = None ->
  let w' := snd (run_full_retrain_cycle io w) in
  match fst (cycle_begin io w) with
  | Stopped _ => merged_data w' = merged_data w
  | Entered c =>
      exists content,
        merged_data w = Some content /\
        read_csv content = Ok (original_df c) /\
        merged_data w' = Some (to_csv (original_df c)) /\
        temp_updated w' = None /\
        (to_csv (original_df c) = content -> merged_data w' = merged_data w)
  end.
Proof.
  intros Hrestore Hremove. unfold run_full_retrain_cycle.
  destruct (cycle_begin io w) as [[r|c] w1] eqn:Hbegin; cbn [fst snd].
  - pose proof (cycle_begin_frame io w) as (Hdata & _).
    rewrite Hbegin in Hdata. exact Hdata.
  - destruct (cycle_begin_entered io w c w1 Hbegin) as (content & dir & Hdata & Hread & _).
    exists content. split; [assumption|]. split; [assumption|].
    destruct (cycle_try io c w1) as [returned w2].
    unfold cycle_finally. rewrite Hrestore. cbn.
    destruct (temp_updated w2) eqn:Htemp; [rewrite Hremove|]; cbn;
      (split; [reflexivity|]; split; [try reflexivity; assumption|];
       intros ->; symmetry; assumption).
Qed.

(** ** Reloading the model *)

(** [load_model_safely] assigns the three globals one after the
    other, and its [except] branch answers by the model global alone.
    When [joblib.load] raises, the model and the schema stay, the
    metrics become the placeholder, and the answer is [True] as soon as
    a model was loaded before. When it returns, the model global is the
    new estimator and the answer is [True]; the schema is the new one
    only if the estimator gives its feature names, and is left as it
    was otherwise; the metrics are the new ones only if the schema was
    set and the metrics file is read. *)
Lemma load_model_safely_outcomes w :
  let ok := fst (load_model_safely w) in
  let w' := snd (load_model_safely w) in
  match read_file MODEL_PATH (model_joblib w) ≫= joblib_load with
  | Raise _ =>
      model w' = model w /\ model_features w' = model_features w /\
      model_metrics w' = metrics_not_found /\
      ok = match model w with Some _ => true | None => false end
  | Ok m =>
      ok = true /\ model w' = Some m /\
      match feature_names_in_ m with
      | Raise _ =>
          model_features w' = model_features w /\
          model_metrics w' = metrics_not_found
      | Ok names =>
          model_features w' = Some names /\
          model_metrics w' =
            match read_file METRICS_PATH (model_metrics_json w) ≫= json_load with
            | Ok metrics => metrics
            | Raise _ => metrics_not_found
            end
      end
  end.
Proof.
  unfold load_model_safely.
  destruct (read_file MODEL_PATH (model_joblib w) ≫= joblib_load) as [m|e]; cbn.
  - destruct (feature_names_in_ m) as [names|e]; cbn; [|auto].
    destruct (read_file METRICS_PATH (model_metrics_json w) ≫= json_load); cbn; auto.
  - destruct (model w); auto.
Qed.

(** ** Feedback files through a cycle *)

Lemma pending_files_lookup w name content :
  pending_files w !! name = Some content <->
  endswith name ".json" = true /\
  exists dir, feedback_local w = Some dir /\ entries dir !! name = Some content.
Proof.
  unfold pending_files. destruct (feedback_local w) as [dir|].
  - rewrite map_lookup_filter_Some. cbn. split.
    + intros [? ?]; eauto.
    + intros [? (dir' & Hdir & ?)]. injection Hdir as <-. auto.
  - rewrite lookup_empty. split; [discriminate|].
    intros [_ (dir & Hdir & _)]. discriminate.
Qed.

(** A file of the directory is moved with its content or stays; a name
    that is no file of the directory is not touched under [archive]. *)
Lemma move_to_archive_keeps io files : forall d name,
  let d' := snd (move_to_archive io files d) in
  (forall content, entries d !! name = Some content ->
     entries d' !! name = Some content \/ default ∅ (archive d') !! name = Some content) /\
  (entries d !! name = None ->
     entries d' !! name = None /\
     default ∅ (archive d') !! name = default ∅ (archive d) !! name).
Proof.
  induction files as [|f rest IH]; intros d name; cbn.
  - auto.
  - destruct (rename_fault io f); cbn; [auto|].
    destruct (entries d !! f) as [c|] eqn:Hf; cbn; [|auto].
    specialize (IH {| entries := delete f (entries d);
                      archive := Some (<[f := c]> (default ∅ (archive d))) |} name).
    cbn in IH. destruct IH as [IHsome IHnone].
    destruct (decide (f = name)) as [->|Hne].
    + rewrite lookup_delete_eq in IHnone. destruct (IHnone eq_refl) as [Hgone Harch].
      rewrite lookup_insert_eq in Harch.
      split.
      * intros content Hc. right. rewrite Harch. congruence.
      * intros Hnone. congruence.
    + rewrite lookup_delete_ne in IHsome, IHnone by assumption.
      split; [exact IHsome|].
      intros Hnone. destruct (IHnone Hnone) as [? Harch]. split; [assumption|].
      rewrite Harch. rewrite lookup_insert_ne by assumption. reflexivity.
Qed.

Lemma archive_feedback_keeps io files w dir name content :
  feedback_local w = Some dir ->
  entries dir !! name = Some content ->
  exists dir', feedback_local (snd (archive_feedback io files w)) = Some dir' /\
    (entries dir' !! name = Some content \/
     default ∅ (archive dir') !! name = Some content).
Proof.
  intros Hdir Hname. unfold archive_feedback.
  destruct (archive_makedirs_fault io); cbn; [eauto|].
  rewrite Hdir. cbn.
  pose proof (move_to_archive_keeps io files
                {| entries := entries dir; archive := Some (default ∅ (archive dir)) |} name)
    as [Hkeep _].
  cbn in Hkeep. specialize (Hkeep content Hname).
  destruct (move_to_archive io files _) as [r dir']; cbn in *. eauto.
Qed.

Lemma cycle_retrain_keeps io c w dir name content :
  feedback_local w = Some dir ->
  entries dir !! name = Some content ->
  exists dir', feedback_local (snd (cycle_retrain io c w)) = Some dir' /\
    (entries dir' !! name = Some content \/
     default ∅ (archive dir') !! name = Some content).
Proof.
  intros Hdir Hname. unfold cycle_retrain.
  pose proof (train_frame io w) as (_ & _ & Htrain & _). cbn in Htrain.
  destruct (train io w) as [[new_metrics|e] w1]; cbn in Htrain |- *;
    [|rewrite Htrain; eauto].
  pose proof (load_model_safely_files w1) as (_ & _ & Hload). cbn in Hload.
  destruct (load_model_safely w1) as [[|] w2]; cbn in Hload |- *;
    [|rewrite Hload, Htrain; eauto].
  assert (feedback_local w2 = Some dir) as Hdir2 by congruence.
  destruct (archive_feedback_keeps io (feedback_files c) w2 dir name content Hdir2 Hname)
    as (dir' & Hdir' & Hkept).
  destruct (archive_feedback io (feedback_files c) w2) as [[?|?] w3]; cbn in *; eauto.
Qed.

(** Without a reload that answers [True], [cycle_retrain] leaves the
    feedback directory and the served estimator alone. *)
Lemma cycle_retrain_rolled_back io c w :
  match train io w with
  | (Raise _, _) => true
  | (Ok _, w1) => negb (fst (load_model_safely w1))
  end = true ->
  let w' := snd (cycle_retrain io c w) in
  feedback_local w' = feedback_local w /\ model w' = model w /\
  model_features w' = model_features w.
Proof.
  unfold cycle_retrain.
  pose proof (train_frame io w) as (_ & _ & Hf & Hm & Hfs & _). cbn in Hf, Hm, Hfs.
  destruct (train io w) as [[new_metrics|e] w1]; cbn in *; [|auto].
  pose proof (load_model_safely_files w1) as (_ & _ & Hload).
  pose proof (load_model_safely_false w1) as Hfalse. cbn in Hload, Hfalse.
  destruct (load_model_safely w1) as [[|] w2]; cbn in *; [discriminate|].
  intros _. destruct (Hfalse eq_refl) as [-> ->]. rewrite Hload. auto.
Qed.

(** C9, amended. A retrain cycle neither deletes nor rewrites a pending
    feedback file: every file pending before the cycle is pending after
    it or is found in the archive, with the same content. Files are
    moved only in a cycle in which [load_model_safely] answered [True];
    after any other cycle the feedback directory is as it was, and the
    next trigger evaluates it again, to the same outcome. *)
Theorem cycle_keeps_feedback io w :
  let w' := snd (run_full_retrain_cycle io w) in
  (forall name content,
     pending_files w !! name = Some content ->
     pending_files w' !! name = Some content \/
     archived_files w' !! name = Some content) /\
  (reload_reported_success io w = false ->
     feedback_local w' = feedback_local w /\
     evaluate_performance w' = evaluate_performance w).
Proof.
  cbn zeta. unfold run_full_retrain_cycle, reload_reported_success.
  pose proof (cycle_begin_frame io w) as (_ & Hb & Hbm & Hbf & _). cbn in Hb, Hbm, Hbf.
  destruct (cycle_begin io w) as [[r|c] w1]; cbn in Hb, Hbm, Hbf |- *.
  - split.
    + intros name content. rewrite !pending_files_lookup, Hb. auto.
    + intros _. split; [assumption|]. apply evaluate_performance_ext; assumption.
  - unfold cycle_try.
    pose proof (cycle_replace_frame io w1) as (Hr & Hrm & Hrf & _). cbn in Hr, Hrm, Hrf.
    destruct (cycle_replace io w1) as [[[]|e] w2]; cbn in Hr, Hrm, Hrf |- *.
    + pose proof (cycle_retrain_rolled_back io c w2) as Hrolled.
      pose proof (fun d n x => cycle_retrain_keeps io c w2 d n x) as Hkeeps.
      destruct (cycle_retrain io c w2) as [returned w3]; cbn in Hrolled, Hkeeps.
      pose proof (cycle_finally_frame io c w3) as (Hf & Hfm & Hff & _). cbn in Hf, Hfm, Hff.
      assert (snd (let (r, w0) := cycle_finally io c w3 in
                   match r with Ok _ => (Ok returned, w0) | Raise e => (Raise e, w0) end)
              = snd (cycle_finally io c w3)) as ->
        by (destruct (cycle_finally io c w3) as [[?|?] ?]; reflexivity).
      split.
      * intros name content. rewrite !pending_files_lookup.
        intros [Hjson (dir & Hdir & Hname)].
        destruct (Hkeeps dir name content) as (dir' & Hdir' & Hkept); [congruence|assumption|].
        destruct Hkept as [Hkept|Hkept].
        -- left. split; [assumption|]. exists dir'. split; [congruence|assumption].
        -- right. unfold archived_files. rewrite Hf, Hdir'. assumption.
      * intros Hnot.
        assert (match train io w2 with
                | (Raise _, _) => true
                | (Ok _, w1) => negb (fst (load_model_safely w1))
                end = true) as Hcase.
        { destruct (train io w2) as [[?|?] ?]; [|reflexivity]. rewrite Hnot. reflexivity. }
        destruct (Hrolled Hcase) as (H1 & H2 & H3).
        assert (feedback_local (snd (cycle_finally io c w3)) = feedback_local w) by congruence.
        split; [assumption|]. apply evaluate_performance_ext; congruence.
    + pose proof (cycle_finally_frame io c w2) as (Hf & Hfm & Hff & _). cbn in Hf, Hfm, Hff.
      assert (snd (let (r, w0) := cycle_finally io c w2 in
                   match r with Ok _ => (Ok (error_dict e), w0) | Raise e0 => (Raise e0, w0) end)
              = snd (cycle_finally io c w2)) as ->
        by (destruct (cycle_finally io c w2) as [[?|?] ?]; reflexivity).
      assert (feedback_local (snd (cycle_finally io c w2)) = feedback_local w) by congruence.
      split.
      * intros name content. rewrite !pending_files_lookup. intros [? (dir & ? & ?)].
        left. split; [assumption|]. exists dir. split; [congruence|assumption].
      * intros _. split; [assumption|]. apply evaluate_performance_ext; congruence.
Qed.

(** ** Trainer and reload failures *)

(** [train] answers a missing training file by returning [None]. *)
Lemma train_without_files io w :
  train_processed w = None -> train io w = (Ok None, w).
Proof. unfold train. intros ->. reflexivity. Qed.

(** When the trainer raises, the cycle returns the error and leaves
    the served estimator and the feedback directory as they were. *)
Lemma trainer_exception_rolls_back io w c w1 w2 e w3 :
  cycle_begin io w = (Entered c, w1) ->
  cycle_replace io w1 = (Ok tt, w2) ->
  train io w2 = (Raise e, w3) ->
  let w' := snd (run_full_retrain_cycle io w) in
  feedback_local w' = feedback_local w /\ model w' = model w /\
  model_features w' = model_features w /\ model_metrics w' = model_metrics w /\
  (restore_write io = Written -> temp_remove_fault io = None ->
   fst (run_full_retrain_cycle io w) = Ok (error_dict e)).
Proof.
  intros Hbegin Hreplace Htrain. cbn zeta.
  unfold run_full_retrain_cycle, cycle_try, cycle_retrain.
  rewrite Hbegin, Hreplace, Htrain.
  pose proof (cycle_begin_frame io w) as (_ & Hb1 & Hb2 & Hb3 & Hb4).
  pose proof (cycle_replace_frame io w1) as (Hr1 & Hr2 & Hr3 & Hr4).
  pose proof (train_frame io w2) as (_ & _ & Ht1 & Ht2 & Ht3 & Ht4).
  pose proof (cycle_finally_frame io c w3) as (Hf1 & Hf2 & Hf3 & Hf4).
  rewrite Hbegin in Hb1, Hb2, Hb3, Hb4. rewrite Hreplace in Hr1, Hr2, Hr3, Hr4.
  rewrite Htrain in Ht1, Ht2, Ht3, Ht4. cbn in *.
  assert (forall r : result unit * World,
            snd (let (o, w0) := r in
                 match o with Ok _ => (Ok (error_dict e), w0) | Raise e0 => (Raise e0, w0) end)
            = snd r) as Hsnd by (intros [[?|?] ?]; reflexivity).
  rewrite Hsnd. repeat split; try congruence.
  intros Hrestore Hremove. unfold cycle_finally. rewrite Hrestore. cbn.
  destruct (temp_updated w3); [rewrite Hremove|]; reflexivity.
Qed.

(** With an estimator in memory, a reload whose [joblib.load] raises
    still answers [True]. *)
Lemma failed_reload_answers_true w m :
  model w = Some m ->
  is_ok (read_file MODEL_PATH (model_joblib w) ≫= joblib_load) = false ->
  fst (load_model_safely w) = true.
Proof.
  intros Hm Hload. unfold load_model_safely, load_failed.
  destruct (read_file MODEL_PATH (model_joblib w) ≫= joblib_load); [discriminate|].
  cbn. rewrite Hm. reflexivity.
Qed.

(** ** Feedback submissions *)

Lemma receive_feedback_accepted now io data w ack w1 :
  receive_feedback now io data w = (Response ack, w1) ->
  let name := feedback_name now (id (house data)) in
  row_get "file" ack = Some (CStr (path_join FEEDBACK_PATH name)) /\
  pending_files w1 = <[name := json_dump (FeedbackData_dict data)]> (pending_files w).
Proof.
  unfold receive_feedback.
  destruct (feedback_makedirs_fault io); [discriminate|].
  destruct (feedback_write io); [|discriminate].
  intros H. injection H as <- <-. cbn. split; [reflexivity|].
  unfold pending_files. cbn.
  rewrite map_filter_insert_True by apply feedback_name_json.
  destruct (feedback_local w); cbn; [reflexivity|].
  rewrite map_filter_empty. reflexivity.
Qed.

(** C10. Two accepted submissions with the same id, arriving within
    the same second, are written to the same path; after the second the
    pending files are those from before the two calls plus that one
    file, holding the second record: the first is overwritten. *)
Theorem same_second_same_id_overwrites now1 now2 io1 io2 d1 d2 w :
  same_second now1 now2 ->
  id (house d1) = id (house d2) ->
  let r1 := receive_feedback now1 io1 d1 w in
  let r2 := receive_feedback now2 io2 d2 (snd r1) in
  accepted (fst r1) = true ->
  accepted (fst r2) = true ->
  stored_file (fst r1) = stored_file (fst r2) /\
  exists name,
    stored_file (fst r2) = Some (CStr (path_join FEEDBACK_PATH name)) /\
    endswith name ".json" = true /\
    pending_files (snd r1) = <[name := json_dump (FeedbackData_dict d1)]> (pending_files w) /\
    pending_files (snd r2) = <[name := json_dump (FeedbackData_dict d2)]> (pending_files w).
Proof.
  intros Hsecond Hid r1 r2 Hack1 Hack2.
  destruct r1 as [[ack1|] w1] eqn:H1; [|discriminate].
  destruct r2 as [[ack2|] w2] eqn:H2; [|discriminate].
  cbn [fst snd] in *. subst r1 r2.
  destruct (receive_feedback_accepted _ _ _ _ _ _ H1) as [Hfile1 Hpending1].
  destruct (receive_feedback_accepted _ _ _ _ _ _ H2) as [Hfile2 Hpending2].
  cbn zeta in *.
  assert (feedback_name now1 (id (house d1)) = feedback_name now2 (id (house d2))) as Hname.
  { unfold feedback_name. rewrite (strftime_same_second _ _ Hsecond), Hid. reflexivity. }
  rewrite Hname in Hfile1, Hpending1. cbn [stored_file].
  split; [congruence|].
  exists (feedback_name now2 (id (house d2))).
  split; [assumption|]. split; [apply feedback_name_json|]. split; [assumption|].
  rewrite Hpending2, Hpending1. apply insert_insert_eq.
Qed.

(** ** Prediction *)






(** Only the columns of the schema reach the model. *)
Lemma predict_frame_ext model schema d1 d2 v1 v2 :
  engineer_features d1 = Ok v1 ->
  engineer_features d2 = Ok v2 ->
  (forall c, In c schema -> row_get c v1 = row_get c v2) ->
  predict_frame model (Some schema) d1 = predict_frame model (Some schema) d2.
Proof.
  intros H1 H2 Hsame. unfold predict_frame. rewrite H1, H2.
  cbn -[fillna_zero reindex].
  replace (reindex (Some schema) v1) with (reindex (Some schema) v2); [reflexivity|].
  unfold reindex. apply map_ext_in. intros c Hc. rewrite (Hsame c Hc). reflexivity.
Qed.

(** The prediction for a submitted feedback record is the prediction
    for its raw input: the ground truth is no column of the schema. *)
Lemma feedback_prediction_is_raw_prediction model schema (d : FeedbackData) :
  ~ In "ground_truth_price" schema ->
  predict_frame model (Some schema) (FeedbackData_dict d) =
  predict_frame model (Some schema) (HouseData_dict (house d)).
Proof.
  intros Hschema.
  assert (forall c, In c schema -> String.eqb "ground_truth_price" c = false) as Hne.
  { intros c Hc. apply String.eqb_neq. intros <-. contradiction. }
  destruct (to_datetime (before_T (date_ (house d)))) as [[dt|]|e] eqn:Hdate;
    (eapply predict_frame_ext;
     [ unfold engineer_features, analysis_year_of, FeedbackData_dict, HouseData_dict;
       cbn; rewrite Hdate; cbn; reflexivity
     | unfold engineer_features, analysis_year_of, HouseData_dict;
       cbn; rewrite Hdate; cbn; reflexivity
     | intros c Hc; cbn [row_get]; rewrite (Hne c Hc); reflexivity ]).
Qed.

(** ** Requests in progress *)

(** A request stepped to its answer, alone on the server, is
    [check_model_performance]. *)
Lemma request_runs_check io w :
  let '(r1, w1) := request_step io Received w in
  let '(r2, w2) := request_step io r1 w1 in
  let '(r3, w3) := request_step io r2 w2 in
  let '(r4, w4) := request_step io r3 w3 in
  (r4, w4) = (Answered (fst (check_model_performance io w)),
              snd (check_model_performance io w)).
Proof.
  unfold check_model_performance, run_full_retrain_cycle, cycle_try. cbn.
  destruct (evaluate_performance w) as [r|m]; [reflexivity|].
  destruct (cycle_begin io w) as [[[returned|e]|c] w1]; cbn; [reflexivity..|].
  destruct (cycle_replace io w1) as [[[]|e] w2]; cbn.
  - destruct (cycle_retrain io c w2) as [returned w3]; cbn.
    destruct (cycle_finally io c w3) as [[[]|e] w4]; reflexivity.
  - destruct (cycle_finally io c w2) as [[[]|e'] w4]; reflexivity.
Qed.

Lemma received_eq (rq : request) : received rq = true -> rq = Received.
Proof. destruct rq; (reflexivity || discriminate). Qed.

(** C5, amended. The endpoint takes no guard: whatever point the
    other request stands at, in flight or not, a trigger is evaluated
    on the shared world alone, and when the pending feedback breaches
    the threshold and the cycle can begin, it starts a cycle of its own
    and leaves the other request where it was. *)
Theorem trigger_takes_no_guard io s :
  second s = Received ->
  breaches (evaluate_performance (world s)) = true ->
  enters (fst (cycle_begin io (world s))) = true ->
  let s' := server_step io T2 s in
  in_flight (second s') = true /\
  world s' = snd (cycle_begin io (world s)) /\ first s' = first s.
Proof.
  intros Hreceived Hbreach Hbegin. unfold server_step.
  rewrite Hreceived. cbn.
  destruct (evaluate_performance (world s)) as [r|m]; [discriminate|].
  destruct (cycle_begin io (world s)) as [[r|c] w1]; [discriminate|].
  cbn. auto.
Qed.

End Proofs.

(** * The scenarios, computed *)

Section Concrete.
#[local] Existing Instance Toy.libraries.

(** The pieces, on small inputs. *)
Example endswith_examples :
  endswith "feedback_1.json" ".json" = true /\ endswith "archive" ".json" = false /\
  endswith "json" ".json" = false /\ endswith ".json" ".json" = true.
Proof. repeat split; reflexivity. Qed.

Example feedback_name_example :
  feedback_name Scenario.arrival_1 7129300520 = "feedback_20250105090307_7129300520.json" /\
  feedback_name Scenario.arrival_2 7129300520 = Scenario.far_name.
Proof. split; vm_compute; reflexivity. Qed.

Example wrap64_examples :
  wrap64 59 = 59 /\ wrap64 (2 ^ 63) = - 2 ^ 63 /\ wrap64 (- 2 ^ 63 - 1) = 2 ^ 63 - 1.
Proof. repeat split; reflexivity. Qed.

Example engineered_house :
  let vector := default [] (match engineer_features (HouseData_dict Toy.a_house) with
                            | Ok v => Some v
                            | Raise _ => None
                            end) in
  row_get "house_age" vector = Some (CInt 59) /\
  row_get "time_since_renovation" vector = Some (CInt 59) /\
  row_get "was_renovated" vector = Some (CInt 0) /\
  row_get "total_rooms" vector = Some (CFloat 4) /\
  row_get "log_price" vector = None /\
  length vector = 27%nat.
Proof. cbv zeta. repeat split; vm_compute; reflexivity. Qed.

Example reindex_example :
  fillna_zero (reindex (Some ["bedrooms"; "unknown"; "lat"])
                 [("lat", CFloat nan); ("id", CInt 1); ("bedrooms", CInt 3)])
  = [("bedrooms", CInt 3); ("unknown", CFloat 0); ("lat", CFloat 0)].
Proof. vm_compute. reflexivity. Qed.

(** C1, counterexample. The dataset file holds a table whose last line
    has no terminator; one feedback record breaches the threshold and
    the cycle runs to its end without a fault. [read_csv] parses the
    two lines, [to_csv] writes a terminator after each: the file ends a
    byte longer than it started. *)
Lemma unterminated_dataset_is_rewritten :
  exists before after,
    merged_data Scenario.unterminated = Some before /\
    merged_data (snd (run_full_retrain_cycle no_faults Scenario.unterminated)) = Some after /\
    is_ok (fst (run_full_retrain_cycle no_faults Scenario.unterminated)) = true /\
    before <> after.
Proof.
  eexists _, _. split; [reflexivity|]. split; [vm_compute; reflexivity|].
  split; [vm_compute; reflexivity|].
  vm_compute. intros H. discriminate H.
Qed.

(** C1, witness: a cycle on [Scenario.breached] with no fault. *)
Lemma cycle_end_restores_parsed_dataset_witness :
  restore_write no_faults = Written /\
  temp_remove_fault no_faults = None /\
  let w' := snd (run_full_retrain_cycle no_faults Scenario.breached) in
  match fst (cycle_begin no_faults Scenario.breached) with
  | Stopped _ => merged_data w' = merged_data Scenario.breached
  | Entered c =>
      exists content,
        merged_data Scenario.breached = Some content /\
        read_csv content = Ok (original_df c) /\
        merged_data w' = Some (to_csv (original_df c)) /\
        temp_updated w' = None /\
        (to_csv (original_df c) = content -> merged_data w' = merged_data Scenario.breached)
  end.
Proof.
  split; [reflexivity|]. split; [reflexivity|].
  exact (cycle_end_restores_parsed_dataset no_faults Scenario.breached eq_refl eq_refl).
Defined.

(** The dataset of [Scenario.breached] is what [to_csv] writes for its
    own parse, and the cycle leaves it byte for byte. *)
Lemma terminated_dataset_is_restored :
  merged_data (snd (run_full_retrain_cycle no_faults Scenario.breached))
  = merged_data Scenario.breached.
Proof. vm_compute. reflexivity. Qed.

(** C2, the code at the failing input. The processed training files
    are missing, so [train] logs the error and returns [None]: the
    trainer has failed. The cycle goes on, reloads the artifact that is
    on the disk, and moves the pending feedback file to the archive;
    the dataset and the served estimator are as before. *)
Lemma trainer_returning_none_archives_feedback :
  let doc := json_dump (FeedbackData_dict Toy.far_feedback) in
  fst (train no_faults Scenario.untrainable) = Ok None /\
  map_to_list (pending_files Scenario.untrainable) = [(Scenario.far_name, doc)] /\
  let after := snd (check_model_performance no_faults Scenario.untrainable) in
  map_to_list (pending_files after) = [] /\
  map_to_list (archived_files after) = [(Scenario.far_name, doc)] /\
  option_map Toy.name (model after) = option_map Toy.name (model Scenario.untrainable) /\
  merged_data after = merged_data Scenario.untrainable.
Proof.
  cbv zeta. repeat split; vm_compute; reflexivity.
Qed.

(** C3, the code at the failing input. With the processed training
    files missing, [train] returns [None]; the request answers
    [retrain_triggered = true] with [new_metrics] null, and no error
    anywhere. With the artifact missing as well, [joblib.load] raises
    inside [load_model_safely], which answers [True] all the same
    because the previous estimator is still in memory: the answer is
    the same, the metrics are the placeholder and the feedback is
    archived. *)
Lemma absorbed_failures_answer_success :
  (fst (train no_faults Scenario.untrainable) = Ok None /\
   let answer := body_of (fst (check_model_performance no_faults Scenario.untrainable)) in
   retrain_triggered <$> answer = Some true /\
   new_metrics <$> answer = Some (Some None)) /\
  (fst (train no_faults Scenario.unloadable) = Ok None /\
   is_ok (read_file MODEL_PATH (model_joblib Scenario.unloadable) ≫= joblib_load) = false /\
   fst (load_model_safely Scenario.unloadable) = true /\
   let answer := body_of (fst (check_model_performance no_faults Scenario.unloadable)) in
   let after := snd (check_model_performance no_faults Scenario.unloadable) in
   retrain_triggered <$> answer = Some true /\
   new_metrics <$> answer = Some (Some None) /\
   map_to_list (pending_files after) = [] /\
   model_metrics after = metrics_not_found).
Proof.
  cbv zeta. repeat split; vm_compute; reflexivity.
Qed.

(** C5, counterexample. The first request has replaced the dataset
    when the second trigger arrives. The second is evaluated like any
    other, starts a cycle of its own (reading the augmented dataset as
    the original) and replaces the dataset too, while the first holds
    it. Both requests end with a report; the dataset is left with the
    feedback record in it. *)
Lemma second_trigger_starts_second_cycle :
  let one := serve no_faults [T1; T1] Scenario.two_requests in
  let two := serve no_faults [T2; T2] one in
  let done := serve no_faults [T1; T1; T2; T2] two in
  (in_flight (first one) = true /\ received (second one) = true) /\
  in_flight (second (server_step no_faults T2 one)) = true /\
  (holds_dataset (first two) = true /\ holds_dataset (second two) = true) /\
  (accepted (match first done with Answered r => r | _ => HTTPException 0 "" end) = true /\
   accepted (match second done with Answered r => r | _ => HTTPException 0 "" end) = true) /\
  exists before after,
    merged_data (world Scenario.two_requests) = Some before /\
    merged_data (world done) = Some after /\ before <> after.
Proof.
  cbv zeta. split; [split; vm_compute; reflexivity|].
  split; [vm_compute; reflexivity|].
  split; [split; vm_compute; reflexivity|].
  split; [split; vm_compute; reflexivity|].
  eexists _, _. split; [vm_compute; reflexivity|]. split; [vm_compute; reflexivity|].
  intros H. discriminate H.
Qed.

(** C5, witness: the second trigger, with the first request in flight. *)
Lemma trigger_takes_no_guard_witness :
  let s := serve no_faults [T1; T1] Scenario.two_requests in
  received (second s) = true /\
  breaches (evaluate_performance (world s)) = true /\
  enters (fst (cycle_begin no_faults (world s))) = true /\
  in_flight (first s) = true /\
  let s' := server_step no_faults T2 s in
  in_flight (second s') = true /\
  world s' = snd (cycle_begin no_faults (world s)) /\ first s' = first s.
Proof.
  cbv zeta.
  assert (received (second (serve no_faults [T1; T1] Scenario.two_requests)) = true)
    as H1 by (vm_compute; reflexivity).
  assert (breaches (evaluate_performance
                      (world (serve no_faults [T1; T1] Scenario.two_requests))) = true)
    as H2 by (vm_compute; reflexivity).
  assert (enters (fst (cycle_begin no_faults
                         (world (serve no_faults [T1; T1] Scenario.two_requests)))) = true)
    as H3 by (vm_compute; reflexivity).
  split; [exact H1|]. split; [exact H2|]. split; [exact H3|].
  split; [vm_compute; reflexivity|].
  exact (trigger_takes_no_guard no_faults _ (received_eq _ H1) H2 H3).
Defined.

(** C6, witness: feedback within 1% of the served price. *)
Lemma no_breach_leaves_dataset_witness :
  (pending_records Scenario.stable = [] \/
   exists metric,
     monitor_evaluate Scenario.stable (pending_records Scenario.stable) = Ok metric /\
     PrimFloat.leb metric ERROR_THRESHOLD_MAPE = true) /\
  exists report w',
    check_model_performance no_faults Scenario.stable = (Response report, w') /\
    retrain_triggered report = false /\
    merged_data w' = merged_data Scenario.stable /\ w' = Scenario.stable.
Proof.
  assert (pending_records Scenario.stable = [] \/
          exists metric,
            monitor_evaluate Scenario.stable (pending_records Scenario.stable) = Ok metric /\
            PrimFloat.leb metric ERROR_THRESHOLD_MAPE = true) as H.
  { right. eexists. split; [vm_compute; reflexivity|vm_compute; reflexivity]. }
  split; [exact H|].
  exact (no_breach_leaves_dataset no_faults Scenario.stable H).
Defined.


(** The two scenarios, measured: 0.45 breaches, 0.0099 does not. *)
Lemma breached_and_stable_metrics :
  breaches (evaluate_performance Scenario.breached) = true /\
  breaches (evaluate_performance Scenario.stable) = false /\
  accepted (fst (check_model_performance no_faults Scenario.breached)) = true /\
  map_to_list (pending_files (snd (check_model_performance no_faults Scenario.breached)))
    = [] /\
  map_to_list (archived_files (snd (check_model_performance no_faults Scenario.breached)))
    = [(Scenario.far_name, json_dump (FeedbackData_dict Toy.far_feedback))].
Proof. repeat split; vm_compute; reflexivity. Qed.



(** C9, counterexample. Two submissions for the same house arrive
    within one second, with different ground truths. Both are accepted.
    After the second, the only pending file holds the second record and
    nothing is archived: the first record has been overwritten in
    place. *)
Lemma second_submission_erases_first :
  let r1 := receive_feedback Scenario.arrival_1 no_faults Toy.far_feedback
              Scenario.empty_store in
  let r2 := receive_feedback Scenario.arrival_2 no_faults Toy.close_feedback (snd r1) in
  accepted (fst r1) = true /\ accepted (fst r2) = true /\
  exists name first_record second_record,
    map_to_list (pending_files (snd r1)) = [(name, first_record)] /\
    map_to_list (pending_files (snd r2)) = [(name, second_record)] /\
    map_to_list (archived_files (snd r2)) = [] /\
    first_record <> second_record.
Proof.
  cbv zeta. split; [vm_compute; reflexivity|]. split; [vm_compute; reflexivity|].
  exists Scenario.far_name, (json_dump (FeedbackData_dict Toy.far_feedback)),
    (json_dump (FeedbackData_dict Toy.close_feedback)).
  split; [vm_compute; reflexivity|]. split; [vm_compute; reflexivity|].
  split; [vm_compute; reflexivity|].
  vm_compute. intros H. discriminate H.
Qed.

(** C10, witness: the two arrivals of [Scenario], the close record
    first. *)
Lemma same_second_same_id_overwrites_witness :
  same_second Scenario.arrival_1 Scenario.arrival_2 /\
  id (house Toy.close_feedback) = id (house Toy.far_feedback) /\
  let r1 := receive_feedback Scenario.arrival_1 no_faults Toy.close_feedback
              Scenario.empty_store in
  let r2 := receive_feedback Scenario.arrival_2 no_faults Toy.far_feedback (snd r1) in
  accepted (fst r1) = true /\
  accepted (fst r2) = true /\
  stored_file (fst r1) = stored_file (fst r2) /\
  exists name,
    stored_file (fst r2) = Some (CStr (path_join FEEDBACK_PATH name)) /\
    endswith name ".json" = true /\
    pending_files (snd r1) =
      <[name := json_dump (FeedbackData_dict Toy.close_feedback)]>
        (pending_files Scenario.empty_store) /\
    pending_files (snd r2) =
      <[name := json_dump (FeedbackData_dict Toy.far_feedback)]>
        (pending_files Scenario.empty_store).
Proof.
  assert (same_second Scenario.arrival_1 Scenario.arrival_2) as Hsecond
    by (repeat split; reflexivity).
  assert (accepted (fst (receive_feedback Scenario.arrival_1 no_faults Toy.close_feedback
                           Scenario.empty_store)) = true) as H1
    by (vm_compute; reflexivity).
  assert (accepted (fst (receive_feedback Scenario.arrival_2 no_faults Toy.far_feedback
                           (snd (receive_feedback Scenario.arrival_1 no_faults
                                   Toy.close_feedback Scenario.empty_store)))) = true) as H2
    by (vm_compute; reflexivity).
  split; [exact Hsecond|]. split; [reflexivity|].
  cbv zeta. split; [exact H1|]. split; [exact H2|].
  exact (same_second_same_id_overwrites Scenario.arrival_1 Scenario.arrival_2
           no_faults no_faults Toy.close_feedback Toy.far_feedback Scenario.empty_store
           Hsecond eq_refl H1 H2).
Defined.

End Concrete.

(** ** The reload, on two servers *)

Section Reload.
#[local] Existing Instance Cases.unlabelled_artifacts.

(** C4, the code at the failing inputs. A server holds the triple of
    [served]. First, the artifact on the disk is replaced by an
    estimator that has no [feature_names_in_], next to the metrics of
    the new version: [joblib.load] returns, line 43 has assigned the
    model global when line 44 raises, and the [except] branch, finding
    a model, answers [True]. The server is left with the new estimator,
    the schema of the old one and the placeholder for metrics, neither
    the old triple nor the new one, and [/predict] answers from that
    mix. Second, the artifact is gone from the disk: [joblib.load]
    raises, the answer is [True] all the same, and of the previous
    triple the metrics are replaced by the placeholder. *)
Lemma reload_leaves_mixed_triple :
  (let w := Cases.replaced_artifact in
   let w' := snd (load_model_safely w) in
   option_map Toy.name (model w) = Some "served" /\
   model_features w = Some ["bedrooms"] /\
   model_metrics w = Toy.served_metrics /\
   match read_file MODEL_PATH (model_joblib w) ≫= joblib_load with
   | Ok m => Some (Toy.name m)
   | Raise _ => None
   end = Some "unlabelled" /\
   read_file METRICS_PATH (model_metrics_json w) ≫= json_load = Ok Toy.refitted_metrics /\
   is_ok (feature_names_in_ Cases.unlabelled) = false /\
   fst (load_model_safely w) = true /\
   option_map Toy.name (model w') = Some "unlabelled" /\
   model_features w' = Some ["bedrooms"] /\
   model_metrics w' = metrics_not_found /\
   predicted_price (predict_price Toy.a_house w) = Some (CFloat (expm1 12.3)) /\
   predicted_price (predict_price Toy.a_house w') = Some (CFloat (expm1 12.875))) /\
  (let w := Scenario.unloadable in
   let w' := snd (load_model_safely (L := Toy.libraries) w) in
   is_ok (read_file MODEL_PATH (model_joblib w) ≫= joblib_load (Libraries := Toy.libraries)) = false /\
   fst (load_model_safely (L := Toy.libraries) w) = true /\
   option_map Toy.name (model w') = option_map Toy.name (model w) /\
   model_features w' = model_features w /\
   model_metrics w = Toy.served_metrics /\
   model_metrics w' = metrics_not_found /\
   Toy.served_metrics <> metrics_not_found).
Proof.
  cbv zeta. repeat match goal with |- _ /\ _ => split end;
    try (vm_compute; reflexivity).
  unfold Toy.served_metrics, metrics_not_found. intros H. discriminate H.
Qed.

End Reload.

(** * Further properties of the code *)

Section Further.
Context `{L : Libraries}.

(** ** Feature engineering *)

Lemma analysis_year_of_get df c :
  c <> "date_dt" -> row_get c (fst (analysis_year_of df)) = row_get c df.
Proof.
  intros Hc. unfold analysis_year_of.
  destruct (row_get "date" df) as [[]|]; try reflexivity.
  destruct (to_datetime _) as [[d|]|]; cbn; try reflexivity;
    apply row_get_set_ne; congruence.
Qed.

Lemma analysis_year_of_year df : snd (analysis_year_of df) = date_year df.
Proof.
  unfold analysis_year_of, date_year.
  destruct (row_get "date" df) as [[]|]; try reflexivity.
  destruct (to_datetime _) as [[d|]|]; reflexivity.
Qed.

Lemma date_year_set c v df : c <> "date" -> date_year (row_set c v df) = date_year df.
Proof. intros H. unfold date_year. rewrite row_get_set_ne by assumption. reflexivity. Qed.

Lemma bind_ok {A B} (m : result A) (f : A -> result B) b :
  m ≫= f = Ok b -> exists a, m = Ok a /\ f a = Ok b.
Proof. destruct m as [a|e]; cbn; [eauto|discriminate]. Qed.

Lemma getitem_ok col df v : getitem col df = Ok v -> row_get col df = Some v.
Proof. unfold getitem. destruct (row_get col df); [congruence|discriminate]. Qed.

(** The steps of [engineer_features], read back from a run that
    succeeded. *)
Lemma engineer_features_steps df out :
  engineer_features df = Ok out ->
  exists df1 built renovated beds baths living age since total divisor per_room flag,
    df1 = fst (analysis_year_of
                 match row_get "price" df with
                 | Some p => match np_log1p p with
                             | Ok v => row_set "log_price" v df
                             | Raise _ => df
                             end
                 | None => df
                 end) /\
    match row_get "price" df with Some p => is_ok (np_log1p p) = true | None => True end /\
    row_get "yr_built" df = Some built /\
    row_get "yr_renovated" df = Some renovated /\
    row_get "bedrooms" df = Some beds /\
    row_get "bathrooms" df = Some baths /\
    row_get "sqft_living" df = Some living /\
    np_sub (CInt (date_year df)) built = Ok age /\
    np_sub (CInt (date_year df)) renovated = Ok since /\
    np_gt0 renovated = Ok flag /\
    np_add beds baths = Ok total /\
    np_add total (CFloat 1e-6) = Ok divisor /\
    np_div living divisor = Ok per_room /\
    out = row_set "sqft_per_room" per_room
            (row_set "total_rooms" total
               (row_set "was_renovated" (astype_int flag)
                  (row_set "time_since_renovation"
                     (np_where (np_eq0 renovated) age since)
                     (row_set "house_age" age df1)))).
Proof.
  intros H. unfold engineer_features in H.
  apply bind_ok in H as (df0 & Hdf0 & H).
  assert (df0 = match row_get "price" df with
                 | Some p => match np_log1p p with
                             | Ok v => row_set "log_price" v df
                             | Raise _ => df
                             end
                 | None => df
                 end /\
          match row_get "price" df with Some p => is_ok (np_log1p p) = true | None => True end
          /\ date_year df0 = date_year df
          /\ forall c, c <> "log_price" -> row_get c df0 = row_get c df) as (Hdf0' & Hprice & Hyear & Hget0).
  { destruct (row_get "price" df) as [p|].
    - destruct (np_log1p p) as [v|]; cbn in Hdf0; [|discriminate].
      injection Hdf0 as <-. repeat split; [apply date_year_set; discriminate|].
      intros c Hc. apply row_get_set_ne. congruence.
    - injection Hdf0 as <-. auto. }
  pose proof (analysis_year_of_year df0) as HY.
  pose proof (analysis_year_of_get df0) as HG.
  destruct (analysis_year_of df0) as [df1 Y] eqn:HA. cbn in HY, HG. subst Y.
  rewrite Hyear in H.
  apply bind_ok in H as (built & Hbuilt & H). apply getitem_ok in Hbuilt.
  apply bind_ok in H as (age & Hage & H).
  apply bind_ok in H as (renovated & Hren & H). apply getitem_ok in Hren.
  apply bind_ok in H as (since & Hsince & H).
  apply bind_ok in H as (flag & Hflag & H).
  apply bind_ok in H as (beds & Hbeds & H). apply getitem_ok in Hbeds.
  apply bind_ok in H as (baths & Hbaths & H). apply getitem_ok in Hbaths.
  apply bind_ok in H as (total & Htotal & H).
  apply bind_ok in H as (living & Hliving & H). apply getitem_ok in Hliving.
  apply bind_ok in H as (divisor & Hdiv & H).
  apply bind_ok in H as (per_room & Hper & H).
  injection H as <-.
  repeat (rewrite row_get_set_ne in Hren by discriminate).
  repeat (rewrite row_get_set_ne in Hbeds by discriminate).
  repeat (rewrite row_get_set_ne in Hbaths by discriminate).
  repeat (rewrite row_get_set_ne in Hliving by discriminate).
  rewrite HG in Hbuilt, Hren, Hbeds, Hbaths, Hliving by discriminate.
  rewrite Hget0 in Hbuilt, Hren, Hbeds, Hbaths, Hliving by discriminate.
  exists df1, built, renovated, beds, baths, living, age, since, total, divisor, per_room, flag.
  rewrite <- Hdf0', HA.
  repeat (split; [first [assumption | reflexivity]|]). reflexivity.
Qed.





(** The five features are columns of the engineered frame, and hold
    numbers. *)
Lemma engineered_features_present df out :
  engineer_features df = Ok out ->
  forall c, In c ["house_age"; "time_since_renovation"; "was_renovated"; "total_rooms";
                  "sqft_per_room"] -> exists v, row_get c out = Some v /\ is_number v = true.
Proof.
  intros H. apply engineer_features_steps in H
      as (df1 & built & ren & beds & baths & living & age & since & total & divisor
          & per_room & flag & Hdf1 & Hprice & Hbuilt & Hren & Hbeds & Hbaths & Hliving
          & Hage & Hsince & Hflag & Htotal & Hdiv & Hper & ->).
  - intros c Hc. cbn in Hc.
    destruct Hc as [<-|[<-|[<-|[<-|[<-|[]]]]]];
      repeat (rewrite row_get_set_ne by discriminate); rewrite row_get_set_eq;
      eexists; (split; [reflexivity|]).
    + destruct built; try discriminate; cbn in Hage; injection Hage as <-; reflexivity.
    + destruct built; try discriminate; destruct ren; try discriminate;
        cbn in Hage, Hsince; injection Hage as <-; injection Hsince as <-;
        unfold np_where; cbn;
        repeat match goal with |- context [if ?b then _ else _] => destruct b end;
        reflexivity.
    + reflexivity.
    + destruct beds, baths; try discriminate; cbn in Htotal; injection Htotal as <-;
        try reflexivity; discriminate.
    + destruct living, divisor; try discriminate; cbn in Hper; injection Hper as <-; reflexivity.
Qed.

(** X2. [engineer_features] assigns seven columns at most ([log_price],
    [date_dt] and the five features) and leaves every other column of
    the frame with the value it had; the five features are columns of
    the result, each holding a number. *)
Theorem engineer_features_keeps_columns df out :
  engineer_features df = Ok out ->
  (forall c, ~ In c engineered_columns -> row_get c out = row_get c df) /\
  (forall c, In c ["house_age"; "time_since_renovation"; "was_renovated"; "total_rooms";
                   "sqft_per_room"] -> exists v, row_get c out = Some v /\ is_number v = true).
Proof.
  intros H. split; [|exact (engineered_features_present df out H)].
  apply engineer_features_steps in H
      as (df1 & built & ren & beds & baths & living & age & since & total & divisor
          & per_room & flag & Hdf1 & Hprice & Hbuilt & Hren & Hbeds & Hbaths & Hliving
          & Hage & Hsince & Hflag & Htotal & Hdiv & Hper & ->).
  intros c Hc. unfold engineered_columns in Hc. cbn in Hc.
  repeat (rewrite row_get_set_ne by (intros <-; tauto)).
  rewrite Hdf1, analysis_year_of_get by (intros ->; tauto).
  destruct (row_get "price" df) as [p|]; [|reflexivity].
  destruct (np_log1p p); [|reflexivity].
  apply row_get_set_ne. intros <-; tauto.
Qed.



(** ** Selecting columns *)

Lemma filter_label_absent c (df : row) :
  ~ In c (columns df) -> List.filter (fun cv => String.eqb (fst cv) c) df = [].
Proof.
  induction df as [|[k v] rest IH]; cbn; [reflexivity|].
  intros Hc. destruct (String.eqb_spec k c) as [->|_]; [tauto|]. apply IH. tauto.
Qed.

(** With distinct labels, one column answers to a label. *)
Lemma filter_label_present c v (df : row) :
  List.NoDup (columns df) -> row_get c df = Some v ->
  List.filter (fun cv => String.eqb (fst cv) c) df = [(c, v)].
Proof.
  induction df as [|[k x] rest IH]; cbn; [discriminate|].
  intros Hnd Hget. apply List.NoDup_cons_iff in Hnd as [Hk Hnd].
  destruct (String.eqb_spec k c) as [->|Hne].
  - injection Hget as <-. rewrite filter_label_absent by assumption. reflexivity.
  - apply IH; assumption.
Qed.

Lemma row_get_In c v (df : row) : row_get c df = Some v -> In c (columns df).
Proof.
  induction df as [|[k x] rest IH]; cbn; [discriminate|].
  destruct (String.eqb_spec k c) as [->|_]; auto.
Qed.

Lemma In_row_get c (df : row) : In c (columns df) -> exists v, row_get c df = Some v.
Proof.
  induction df as [|[k x] rest IH]; cbn; [tauto|].
  intros [->|H]; [rewrite String.eqb_refl; eauto|].
  destruct (String.eqb k c); eauto.
Qed.

(** On a frame with distinct labels, [df[names]] is the reindexing
    onto [names] when every label is a column, a [KeyError] if not. *)
Lemma getitem_columns_distinct names (df : row) :
  List.NoDup (columns df) ->
  (forall c, In c names -> In c (columns df)) ->
  getitem_columns names df = Ok (reindex (Some names) df).
Proof.
  intros Hnd. induction names as [|c rest IH]; intros Hin; [reflexivity|].
  cbn [getitem_columns].
  destruct (In_row_get c df (Hin c (or_introl eq_refl))) as [v Hv].
  rewrite (filter_label_present c v df Hnd Hv), IH by (intros; apply Hin; right; assumption).
  cbn. rewrite Hv. reflexivity.
Qed.

Lemma getitem_columns_missing names (df : row) c :
  In c names -> ~ In c (columns df) -> is_ok (getitem_columns names df) = false.
Proof.
  induction names as [|k rest IH]; cbn; [tauto|].
  intros [->|Hc] Hmiss.
  - rewrite filter_label_absent by assumption. reflexivity.
  - destruct (List.filter _ df); [reflexivity|].
    specialize (IH Hc Hmiss). destruct (getitem_columns rest df); [discriminate|reflexivity].
Qed.

Lemma columns_fillna_zero df : columns (fillna_zero df) = columns df.
Proof. unfold columns, fillna_zero. rewrite map_map. reflexivity. Qed.

Lemma columns_reindex names df : columns (reindex (Some names) df) = names.
Proof. unfold columns, reindex. rewrite map_map. cbn. apply map_id. Qed.

Lemma row_get_fillna_zero c df :
  row_get c (fillna_zero df) = zero_missing <$> row_get c df.
Proof.
  induction df as [|[k x] rest IH]; cbn; [reflexivity|].
  destruct (String.eqb k c); [reflexivity|exact IH].
Qed.

Lemma reindex_idem names (df : row) :
  columns df = names -> List.NoDup names -> reindex (Some names) df = df.
Proof.
  intros <-. unfold reindex, columns. rewrite map_map.
  induction df as [|[k x] rest IH]; cbn; [reflexivity|].
  intros Hnd. apply List.NoDup_cons_iff in Hnd as [Hk Hnd].
  rewrite String.eqb_refl. cbn. f_equal.
  rewrite <- (IH Hnd) at 2. apply map_ext_in. intros [k' x'] Hin. cbn.
  destruct (String.eqb_spec k k') as [->|_]; [|reflexivity].
  exfalso. apply Hk. apply in_map_iff. exists (k', x'). auto.
Qed.

(** The frame [make_prediction] hands to the model is the one
    [predict_price] hands to it, when the schema repeats no name. *)
Lemma predictor_selection schema vector :
  List.NoDup schema ->
  getitem_columns schema (fillna_zero (reindex (Some schema) vector))
  = Ok (fillna_zero (reindex (Some schema) vector)).
Proof.
  intros Hnd.
  rewrite getitem_columns_distinct.
  - f_equal. apply reindex_idem; [|assumption].
    rewrite columns_fillna_zero. apply columns_reindex.
  - rewrite columns_fillna_zero, columns_reindex. assumption.
  - intros c Hc. rewrite columns_fillna_zero, columns_reindex. assumption.
Qed.

(** X4. The script's predictor and the endpoint price a record alike.
    With the same estimator and a schema that repeats no name,
    [make_prediction] on the dict of a validated record returns the
    price and the formatted price of [predict_price], and no error;
    where [predict_price] answers 500 with an exception in its detail,
    [make_prediction] returns that exception as [{"error": ...}]. *)
Theorem make_prediction_agrees_with_api (data : HouseData) w m schema :
  model w = Some m ->
  model_features w = Some schema ->
  List.NoDup schema ->
  let answer := make_prediction (model w) (model_features w) (HouseData_dict data) in
  match predict_price data w with
  | Response body =>
      row_get "predicted_price" answer = row_get "predicted_price" body /\
      row_get "predicted_price_usd" answer = row_get "predicted_price_usd" body /\
      row_get "error" answer = None
  | HTTPException _ detail =>
      exists e, answer = [("error", CStr e)] /\
                detail = "Erro interno no servidor: " ++ e
  end.
Proof.
  intros Hm Hschema Hnd. cbn zeta.
  unfold predict_price, make_prediction, predict_frame. rewrite Hm, Hschema.
  destruct (engineer_features (HouseData_dict data)) as [vector|e]; cbn -[fillna_zero reindex];
    [|eauto].
  rewrite (predictor_selection schema vector Hnd). cbn -[fillna_zero reindex].
  destruct (model_predict m _) as [y|e]; cbn; eauto.
Qed.

(** X5. The script and the API load alike. In a process that has just
    started, [load_model_safely] leaves in the globals [model] and
    [model_features] of [api.py] what the load at the head of
    [predict_model.py] leaves in its own, from the same artifact:
    nothing when the artifact does not load, the estimator without a
    schema when it does not expose its feature names, both otherwise,
    whether or not the metrics can be read. *)
Theorem script_loads_what_api_loads w :
  model w = None ->
  model_features w = None ->
  let w' := snd (load_model_safely w) in
  (model w', model_features w') = load_predictor (model_joblib w).
Proof.
  intros Hm Hf. cbn zeta. unfold load_model_safely, load_predictor, load_failed.
  change MODEL_FILE with MODEL_PATH.
  destruct (read_file MODEL_PATH (model_joblib w) ≫= joblib_load) as [m|e]; cbn.
  - destruct (feature_names_in_ m) as [names|e]; cbn.
    + destruct (read_file METRICS_PATH (model_metrics_json w) ≫= json_load); reflexivity.
    + rewrite Hf. reflexivity.
  - rewrite Hm, Hf. reflexivity.
Qed.

(** ** The final columns *)

Lemma member_In c l : member c l = true <-> In c l.
Proof.
  unfold member. rewrite existsb_exists. split.
  - intros (x & Hx & ->%String.eqb_eq). assumption.
  - intros H. exists c. split; [assumption|apply String.eqb_refl].
Qed.

Lemma In_FEATURES cols c :
  In c (FEATURES cols) <-> In c cols /\ ~ In c excluded_cols.
Proof.
  unfold FEATURES, cols_to_drop. rewrite filter_In, negb_true_iff.
  split; intros [Hc H]; (split; [assumption|]).
  - intros Hex. apply not_true_iff_false in H. apply H.
    apply member_In, filter_In. split; [assumption|]. apply member_In. assumption.
  - apply not_true_iff_false. intros Hm. apply member_In, filter_In in Hm as [Hex _]. tauto.
Qed.

Lemma columns_row_set c v (df : row) x :
  In x (columns (row_set c v df)) <-> x = c \/ In x (columns df).
Proof.
  induction df as [|[k y] rest IH]; cbn.
  - intuition congruence.
  - destruct (String.eqb_spec k c) as [->|Hne]; cbn; [intuition congruence|].
    rewrite IH. intuition congruence.
Qed.

Lemma NoDup_row_set c v (df : row) :
  List.NoDup (columns df) -> List.NoDup (columns (row_set c v df)).
Proof.
  induction df as [|[k y] rest IH]; cbn; intros Hnd.
  - constructor; [tauto|constructor].
  - apply List.NoDup_cons_iff in Hnd as [Hk Hnd].
    destruct (String.eqb_spec k c) as [->|Hne]; cbn.
    + constructor; assumption.
    + constructor; [|apply IH; assumption].
      intros [->|H]%columns_row_set; [congruence|contradiction].
Qed.

Lemma NoDup_analysis_year_of df :
  List.NoDup (columns df) -> List.NoDup (columns (fst (analysis_year_of df))).
Proof.
  intros Hnd. unfold analysis_year_of.
  destruct (row_get "date" df) as [[]|]; try assumption.
  destruct (to_datetime _) as [[d|]|]; cbn; try assumption; apply NoDup_row_set; assumption.
Qed.

Lemma columns_analysis_year_of df x :
  In x (columns (fst (analysis_year_of df))) -> x = "date_dt" \/ In x (columns df).
Proof.
  unfold analysis_year_of.
  destruct (row_get "date" df) as [[]|]; auto.
  destruct (to_datetime _) as [[d|]|]; cbn; auto; apply columns_row_set.
Qed.

Lemma columns_analysis_year_of_keeps df x :
  In x (columns df) -> In x (columns (fst (analysis_year_of df))).
Proof.
  unfold analysis_year_of.
  destruct (row_get "date" df) as [[]|]; auto.
  destruct (to_datetime _) as [[d|]|]; cbn; auto; intros H; apply columns_row_set; auto.
Qed.

(** The columns of the engineered frame. *)
Lemma engineer_features_columns df out :
  engineer_features df = Ok out ->
  (List.NoDup (columns df) -> List.NoDup (columns out)) /\
  (forall c, In c (columns out) -> In c (columns df) \/ In c engineered_columns) /\
  (forall c, In c (columns df) -> In c (columns out)) /\
  (In "log_price" (columns out) <->
   In "price" (columns df) \/ In "log_price" (columns df)).
Proof.
  intros H. apply engineer_features_steps in H
      as (df1 & built & ren & beds & baths & living & age & since & total & divisor
          & per_room & flag & Hdf1 & Hprice & _ & _ & _ & _ & _ & _ & _ & _ & _ & _ & _ & ->).
  set (df0 := match row_get "price" df with
              | Some p => match np_log1p p with
                          | Ok v => row_set "log_price" v df
                          | Raise _ => df
                          end
              | None => df
              end) in Hdf1.
  assert (forall c, In c (columns df0) <->
                    (c = "log_price" /\ In "price" (columns df)) \/ In c (columns df)) as H0.
  { intros c. subst df0. destruct (row_get "price" df) as [p|] eqn:Hp.
    - apply row_get_In in Hp. destruct (np_log1p p); [|discriminate].
      rewrite columns_row_set. tauto.
    - split; [tauto|]. intros [[_ Hin]|Hin]; [|assumption].
      apply In_row_get in Hin as [v Hv]. congruence. }
  assert (List.NoDup (columns df) -> List.NoDup (columns df0)) as Hnd0.
  { intros Hnd. subst df0. destruct (row_get "price" df) as [p|]; [|assumption].
    destruct (np_log1p p); [apply NoDup_row_set|]; assumption. }
  split; [|split; [|split]].
  - intros Hnd. repeat apply NoDup_row_set. subst df1. apply NoDup_analysis_year_of. auto.
  - intros c Hc. repeat (apply columns_row_set in Hc as [->|Hc]; [right; cbn; tauto|]).
    subst df1. apply columns_analysis_year_of in Hc as [->|Hc]; [right; cbn; tauto|].
    apply H0 in Hc as [[-> _]|Hc]; [right; cbn; tauto|left; assumption].
  - intros c Hc. repeat (apply columns_row_set; right).
    subst df1. apply columns_analysis_year_of_keeps, H0. right. assumption.
  - split.
    + intros Hc. repeat (apply columns_row_set in Hc as [Hc|Hc]; [discriminate|]).
      subst df1. apply columns_analysis_year_of in Hc as [Hc|Hc]; [discriminate|].
      apply H0 in Hc. tauto.
    + intros Hc. repeat (apply columns_row_set; right).
      subst df1. apply columns_analysis_year_of_keeps, H0.
      destruct Hc; [left|right]; auto.
Qed.

Lemma isna_zero_missing v : isna (zero_missing v) = false.
Proof.
  unfold zero_missing. destruct (isna v) eqn:Hv; [|assumption].
  destruct v; reflexivity.
Qed.

Lemma In_excluded_engineered c :
  In c engineered_columns -> ~ In c excluded_cols ->
  In c ["house_age"; "time_since_renovation"; "was_renovated"; "total_rooms";
        "sqft_per_room"].
Proof. unfold engineered_columns, excluded_cols. cbn. intuition congruence. Qed.

(** X6. The frame [run_build_features] keeps has the features and,
    last, the target [log_price], and nothing else. A column is a
    feature exactly when it is a column of the data or one of the five
    engineered features and is none of [price], [log_price], [id],
    [date], [date_dt], [yr_built], [yr_renovated]. No value of the
    frame is missing. *)
Theorem build_features_frame_columns df out :
  List.NoDup (columns df) ->
  build_features_frame df = Ok out ->
  exists features,
    columns out = (features ++ [TARGET])%list /\
    (forall c, In c features <->
               (In c (columns df) \/
                In c ["house_age"; "time_since_renovation"; "was_renovated"; "total_rooms";
                      "sqft_per_room"]) /\ ~ In c excluded_cols) /\
    (forall c v, row_get c out = Some v -> isna v = false).
Proof.
  intros Hnd H. unfold build_features_frame in H.
  apply bind_ok in H as (vector & Hvector & H).
  apply bind_ok in H as (selected & Hselected & H). injection H as <-.
  destruct (engineer_features_columns df vector Hvector) as (Hnd' & Hfrom & Hkeep & Htarget).
  specialize (Hnd' Hnd).
  assert (forall c, In c (final_cols (columns vector)) -> In c (columns vector)) as Hall.
  { intros c Hc. destruct (in_dec string_dec c (columns vector)) as [|Hmiss]; [assumption|].
    pose proof (getitem_columns_missing _ vector c Hc Hmiss) as Hfail.
    rewrite Hselected in Hfail. discriminate. }
  rewrite (getitem_columns_distinct _ vector Hnd' Hall) in Hselected.
  assert (selected = reindex (Some (final_cols (columns vector))) vector) as ->
    by congruence.
  exists (FEATURES (columns vector)). split; [|split].
  - rewrite columns_fillna_zero, columns_reindex. reflexivity.
  - intros c. rewrite In_FEATURES. split; intros [Hc Hex]; (split; [|assumption]).
    + destruct (Hfrom c Hc) as [|Heng]; [auto|]. right.
      apply In_excluded_engineered; assumption.
    + destruct Hc as [Hc|Hc]; [auto|].
      destruct (engineered_features_present df vector Hvector c Hc) as (v & Hv & _).
      eapply row_get_In. eassumption.
  - intros c v. rewrite row_get_fillna_zero.
    destruct (row_get c (reindex _ vector)) as [x|]; cbn; [|discriminate].
    intros [= <-]. apply isna_zero_missing.
Qed.

(** X7. Data is processed for training exactly when
    [engineer_features] accepts it and it has a [price] (or a
    [log_price] of its own): without either there is no target, and the
    selection of line 106 raises a [KeyError]. *)
Theorem build_features_frame_accepts df :
  List.NoDup (columns df) ->
  is_ok (build_features_frame df) =
    is_ok (engineer_features df) &&
    (member "price" (columns df) || member "log_price" (columns df)).
Proof.
  intros Hnd. unfold build_features_frame.
  destruct (engineer_features df) as [vector|e] eqn:Hvector; [|reflexivity].
  destruct (engineer_features_columns df vector Hvector) as (Hnd' & Hfrom & Hkeep & Htarget).
  specialize (Hnd' Hnd). cbn [mbind result_bind is_ok andb].
  destruct (member "price" (columns df) || member "log_price" (columns df)) eqn:Hp.
  - rewrite getitem_columns_distinct; [reflexivity|assumption|].
    intros c [[Hc _]%In_FEATURES|[<-|[]]]%in_app_iff; [assumption|].
    apply Htarget. apply orb_true_iff in Hp as [Hp|Hp]; apply member_In in Hp; auto.
  - assert (~ In TARGET (columns vector)) as Hmiss.
    { intros Hc. apply Htarget in Hc. apply orb_false_iff in Hp as [H1 H2].
      destruct Hc as [Hc|Hc]; apply member_In in Hc; congruence. }
    pose proof (getitem_columns_missing (final_cols (columns vector)) vector TARGET) as Hfail.
    destruct (getitem_columns (final_cols (columns vector)) vector); [|reflexivity].
    discriminate Hfail; [|assumption].
    unfold final_cols. apply in_app_iff. right. left. reflexivity.
Qed.


(** ** Reading the pending feedback *)

(** The loop of lines 164-169 keeps the records of the files that open
    and parse, in the order of the listing. *)
Lemma load_feedback_omap d files : forall acc,
  load_feedback d files acc = (acc ++ omap (feedback_record d) files)%list.
Proof.
  induction files as [|f rest IH]; intros acc; cbn [load_feedback omap list_omap].
  - rewrite app_nil_r. reflexivity.
  - unfold feedback_record at 1.
    destruct (read_file _ _ ≫= json_load) as [data|e].
    + rewrite IH, <- app_assoc. reflexivity.
    + apply IH.
Qed.

Lemma pending_records_omap w dir :
  feedback_local w = Some dir ->
  pending_records w = omap (feedback_record dir) (json_files dir).
Proof. unfold pending_records. intros ->. apply load_feedback_omap. Qed.

Lemma filter_Permutation {A} (f : A -> bool) (l l' : list A) :
  l ≡ₚ l' -> List.filter f l ≡ₚ List.filter f l'.
Proof.
  induction 1 as [|x l l' _ IH|x y l|l l' l'' _ IH1 _ IH2]; cbn.
  - reflexivity.
  - destruct (f x); [constructor|]; assumption.
  - destruct (f x), (f y); try reflexivity. constructor.
  - etransitivity; eassumption.
Qed.

Lemma omap_ext_in {A B} (f g : A -> option B) l :
  (forall x, In x l -> f x = g x) -> omap f l = omap g l.
Proof.
  induction l as [|x l IH]; intros H; cbn; [reflexivity|].
  rewrite (H x (or_introl eq_refl)), IH by (intros; apply H; right; assumption).
  reflexivity.
Qed.

Lemma json_files_In d f :
  In f (json_files d) -> endswith f ".json" = true /\ is_Some (entries d !! f).
Proof.
  unfold json_files, listdir. rewrite filter_In, in_app_iff.
  intros [[Hin|Hin] Hjson]; (split; [assumption|]).
  - apply in_map_iff in Hin as ([k v] & <- & Hin). cbn.
    exists v. apply elem_of_map_to_list. apply list_elem_of_In. assumption.
  - destruct (archive d); [|destruct Hin].
    destruct Hin as [<-|[]]. discriminate.
Qed.

Lemma In_json_files d f v :
  entries d !! f = Some v -> endswith f ".json" = true -> In f (json_files d).
Proof.
  intros Hf Hjson. unfold json_files, listdir. apply filter_In. split; [|assumption].
  apply in_app_iff. left. apply in_map_iff. exists (f, v). split; [reflexivity|].
  apply list_elem_of_In, elem_of_map_to_list. assumption.
Qed.

(** X8. A file of the feedback directory that is no [.json] file, or
    that does not parse, is skipped: with it in the directory the
    pending records are the same, up to the order of the listing. *)
Theorem unreadable_file_is_skipped w dir name content :
  feedback_local w = Some dir ->
  entries dir !! name = None ->
  endswith name ".json" = false \/ is_ok (json_load content) = false ->
  pending_records (set_feedback_local (Some (put_entry name (Some content) dir)) w)
  ≡ₚ pending_records w.
Proof.
  intros Hdir Hnew Hbad.
  rewrite (pending_records_omap w dir Hdir).
  rewrite (pending_records_omap (set_feedback_local (Some (put_entry name (Some content) dir)) w)
             (put_entry name (Some content) dir) eq_refl).
  set (dir' := put_entry name (Some content) dir).
  assert (json_files dir' ≡ₚ List.filter (fun f => endswith f ".json") (name :: listdir dir))
    as Hfiles.
  { unfold json_files. apply filter_Permutation. unfold listdir, dir'. cbn.
    rewrite (map_to_list_insert _ _ _ Hnew). reflexivity. }
  rewrite Hfiles.
  assert (omap (feedback_record dir') (json_files dir)
          = omap (feedback_record dir) (json_files dir)) as Hsame.
  { apply omap_ext_in. intros f [_ [v Hf]]%json_files_In.
    unfold feedback_record, dir'. cbn.
    rewrite lookup_insert_ne by congruence. reflexivity. }
  cbn [List.filter]. destruct (endswith name ".json") eqn:Hjson.
  - destruct Hbad as [|Hbad]; [discriminate|].
    cbn [omap list_omap]. fold (@omap list _ _ _ (feedback_record dir')).
    replace (feedback_record dir' name) with (@None row).
    + fold (json_files dir). rewrite Hsame. reflexivity.
    + unfold feedback_record, dir'. cbn. rewrite lookup_insert_eq. cbn.
      destruct (json_load content); [discriminate|reflexivity].
  - fold (json_files dir). rewrite Hsame. reflexivity.
Qed.

(** ** Records the check cannot evaluate *)

Lemma mapM_fails {A B} (f : A -> result B) l x :
  In x l -> is_ok (f x) = false -> is_ok (mapM f l) = false.
Proof.
  induction l as [|y l IH]; [intros []|].
  intros [->|Hin] Hx; rewrite mapM_cons_ok.
  - rewrite Hx. reflexivity.
  - rewrite (IH Hin Hx). apply andb_false_r.
Qed.

(** A record without its ground truth, or that cannot be priced,
    stops the evaluation with an error. *)
Lemma evaluate_performance_unusable w r :
  In r (pending_records w) ->
  row_get "ground_truth_price" r = None \/
  is_ok (predict_frame (model w) (model_features w) r) = false ->
  exists e, evaluate_performance w = Answer (performance_error e).
Proof.
  intros Hin Hbad.
  assert (pending_records w <> []) as Hne by (intros Heq; rewrite Heq in Hin; destruct Hin).
  rewrite (evaluate_performance_pending w Hne).
  pose proof (collect_predictions_is_ok (model w) (model_features w) (pending_records w) [] [])
    as Hok.
  assert (is_ok (collect_predictions (model w) (model_features w) (pending_records w) [] [])
          = false) as Hfail.
  { rewrite Hok. apply andb_false_iff. destruct Hbad as [Hmiss|Hprice].
    - left. apply (mapM_fails _ _ r Hin). unfold getitem. rewrite Hmiss. reflexivity.
    - right. apply (mapM_fails _ _ r Hin). assumption. }
  destruct (collect_predictions _ _ _ [] []) as [[yt yp]|e]; [discriminate|].
  cbn. eauto.
Qed.

(** X9. One pending record that parses but has no ground truth, or
    that cannot be priced, fails the whole check: the request answers
    500 and the world is as it was, whatever the other records say. No
    cycle runs. *)
Theorem unusable_record_fails_check io w r :
  In r (pending_records w) ->
  row_get "ground_truth_price" r = None \/
  is_ok (predict_frame (model w) (model_features w) r) = false ->
  exists e, check_model_performance io w = (performance_error e, w).
Proof.
  intros Hin Hbad. unfold check_model_performance.
  destruct (evaluate_performance_unusable w r Hin Hbad) as [e ->]. eauto.
Qed.

Lemma predict_frame_without_model features data :
  is_ok (predict_frame None features data) = false.
Proof.
  unfold predict_frame. destruct (engineer_features data); reflexivity.
Qed.

(** X10. With no model loaded and feedback pending, the check can only
    answer 500: it never gets as far as the retrain cycle, the one
    place that would load a model. *)
Theorem check_without_model_fails io w :
  model w = None ->
  pending_records w <> [] ->
  exists e, check_model_performance io w = (performance_error e, w).
Proof.
  intros Hmodel Hne. unfold check_model_performance.
  destruct (pending_records w) as [|r rs] eqn:Hrecs; [congruence|].
  destruct (evaluate_performance_unusable w r) as [e ->]; [| |eauto].
  - rewrite Hrecs. left. reflexivity.
  - right. rewrite Hmodel. apply predict_frame_without_model.
Qed.

(** ** Submissions *)

Lemma append_inj_tail s1 : forall s2 t, s1 ++ t = s2 ++ t -> s1 = s2.
Proof.
  induction s1 as [|c s1 IH]; intros [|c2 s2] t H.
  - reflexivity.
  - apply (f_equal String.length) in H. rewrite !length_append in H. cbn in H. lia.
  - apply (f_equal String.length) in H. rewrite !length_append in H. cbn in H. lia.
  - rewrite !append_cons in H. injection H as -> H. f_equal. eapply IH. eassumption.
Qed.

(** Within one second, the file name tells the ids apart. *)
Lemma feedback_name_inj now1 now2 i1 i2 :
  same_second now1 now2 -> feedback_name now1 i1 = feedback_name now2 i2 -> i1 = i2.
Proof.
  intros Hsecond. unfold feedback_name. rewrite (strftime_same_second _ _ Hsecond).
  intros H. apply String.app_inj in H. apply String.app_inj in H.
  apply String.app_inj in H. apply append_inj_tail in H.
  apply pretty_Z_inj in H. assumption.
Qed.

(** X11. Two accepted submissions for different ids, arriving within
    the same second, are written under different names, and both are
    pending afterwards, each with its own record. *)
Theorem same_second_other_id_keeps_both now1 now2 io1 io2 d1 d2 w :
  same_second now1 now2 ->
  id (house d1) <> id (house d2) ->
  let r1 := receive_feedback now1 io1 d1 w in
  let r2 := receive_feedback now2 io2 d2 (snd r1) in
  accepted (fst r1) = true ->
  accepted (fst r2) = true ->
  let name1 := feedback_name now1 (id (house d1)) in
  let name2 := feedback_name now2 (id (house d2)) in
  name1 <> name2 /\
  pending_files (snd r2) !! name1 = Some (json_dump (FeedbackData_dict d1)) /\
  pending_files (snd r2) !! name2 = Some (json_dump (FeedbackData_dict d2)).
Proof.
  intros Hsecond Hid r1 r2 Hack1 Hack2 name1 name2.
  destruct r1 as [[ack1|] w1] eqn:H1; [|discriminate].
  destruct r2 as [[ack2|] w2] eqn:H2; [|discriminate].
  cbn [fst snd] in *. subst r1 r2.
  destruct (receive_feedback_accepted _ _ _ _ _ _ H1) as [_ Hpending1].
  destruct (receive_feedback_accepted _ _ _ _ _ _ H2) as [_ Hpending2].
  cbn zeta in *. fold name1 in Hpending1. fold name2 in Hpending2.
  assert (name1 <> name2) as Hne.
  { intros Heq. apply Hid. eapply feedback_name_inj; eassumption. }
  split; [assumption|]. rewrite Hpending2, Hpending1. split.
  - rewrite lookup_insert_ne by congruence. apply lookup_insert_eq.
  - apply lookup_insert_eq.
Qed.

(** X12. An accepted submission is read back by the next check: when
    the document [json.dump] wrote loads to the record, the record is
    among the pending records of the world the submission leaves. *)
Theorem submitted_record_is_pending now io data w :
  accepted (fst (receive_feedback now io data w)) = true ->
  json_load (json_dump (FeedbackData_dict data)) = Ok (FeedbackData_dict data) ->
  In (FeedbackData_dict data) (pending_records (snd (receive_feedback now io data w))).
Proof.
  intros Hack Hload. unfold receive_feedback in *.
  destruct (feedback_makedirs_fault io); [discriminate|].
  destruct (feedback_write io); [|discriminate].
  cbn [snd]. set (name := feedback_name now (id (house data))).
  set (dir := put_entry name _ _).
  rewrite (pending_records_omap (set_feedback_local (Some dir) w) dir eq_refl).
  apply list_elem_of_In, list_elem_of_omap. exists name. split.
  - apply list_elem_of_In. apply (In_json_files dir name (json_dump (FeedbackData_dict data))).
    + unfold dir. cbn. apply lookup_insert_eq.
    + apply feedback_name_json.
  - unfold feedback_record, dir, put_entry. cbn [entries]. rewrite lookup_insert_eq.
    cbn [read_file mbind result_bind]. rewrite Hload. reflexivity.
Qed.


(** ** The trainer *)

(** [train] reads the two processed files and nothing else of the
    world. *)
Lemma train_ext io w w' :
  train_processed w' = train_processed w ->
  test_processed w' = test_processed w ->
  model_joblib w' = model_joblib w ->
  model_metrics_json w' = model_metrics_json w ->
  fst (train io w') = fst (train io w) /\
  model_joblib (snd (train io w')) = model_joblib (snd (train io w)) /\
  model_metrics_json (snd (train io w')) = model_metrics_json (snd (train io w)).
Proof.
  intros H1 H2 H3 H4. unfold train. rewrite H1, H2.
  destruct (train_processed w) as [a|]; [|auto].
  destruct (read_csv a) as [ta|]; [|auto].
  destruct (test_processed w) as [b|]; [|auto].
  destruct (read_csv b) as [tb|]; [|auto].
  destruct (search_and_score ta tb) as [[best [[[r2 rmse] mae] mape]]|]; [|auto].
  destruct (model_dump io); [|cbn; auto].
  destruct (metrics_dump io); cbn; auto.
Qed.

(** What [train] has written when it returns metrics. *)
Lemma train_returned io w metrics :
  fst (train io w) = Ok (Some metrics) ->
  exists best r2 rmse mae mape,
    metrics = [ ("r2", CFloat r2); ("rmse_usd", CFloat rmse); ("mae_usd", CFloat mae);
                ("mape_pct", CFloat (mape * 100)); ("mae_usd_formatted", CStr (format_usd mae)) ]
    /\ model_joblib (snd (train io w)) = Some (joblib_dump best)
    /\ model_metrics_json (snd (train io w)) = Some (json_dump metrics).
Proof.
  unfold train.
  destruct (train_processed w) as [a|]; [|discriminate].
  destruct (read_csv a) as [ta|]; [|discriminate].
  destruct (test_processed w) as [b|]; [|discriminate].
  destruct (read_csv b) as [tb|]; [|discriminate].
  destruct (search_and_score ta tb) as [[best [[[r2 rmse] mae] mape]]|]; [|discriminate].
  destruct (model_dump io); [|discriminate].
  destruct (metrics_dump io); [|discriminate].
  cbn. intros [= <-]. exists best, r2, rmse, mae, mape. auto.
Qed.

(** X13. [train] returns [None] exactly when it finds a processed
    file missing (the training file, or the test file after the
    training file was read), and has then written nothing; every other
    failure is an exception. When it returns metrics, the metrics file
    holds their dump, the artifact holds the dump of an estimator, and
    the metrics carry the MAE and its formatted text. *)
Theorem train_returns_what_it_wrote io w :
  (fst (train io w) = Ok None <->
   train_processed w = None \/
   (is_ok (read_file "data/processed/train_processed.csv" (train_processed w) ≫= read_csv)
    = true /\ test_processed w = None)) /\
  (fst (train io w) = Ok None -> snd (train io w) = w) /\
  (forall metrics,
     fst (train io w) = Ok (Some metrics) ->
     model_metrics_json (snd (train io w)) = Some (json_dump metrics) /\
     exists best mae,
       model_joblib (snd (train io w)) = Some (joblib_dump best) /\
       row_get "mae_usd" metrics = Some (CFloat mae) /\
       row_get "mae_usd_formatted" metrics = Some (CStr (format_usd mae))).
Proof.
  split; [|split].
  - unfold train, read_file.
    destruct (train_processed w) as [a|]; cbn; [|intuition].
    destruct (read_csv a) as [ta|]; cbn.
    + destruct (test_processed w) as [b|]; cbn; [|intuition].
      destruct (read_csv b) as [tb|]; cbn; [|intuition discriminate].
      destruct (search_and_score ta tb) as [[best [[[r2 rmse] mae] mape]]|];
        cbn; [|intuition discriminate].
      destruct (model_dump io); cbn; [|intuition discriminate].
      destruct (metrics_dump io); cbn; intuition discriminate.
    + intuition discriminate.
  - unfold train.
    destruct (train_processed w) as [a|]; [|reflexivity].
    destruct (read_csv a) as [ta|]; [|discriminate].
    destruct (test_processed w) as [b|]; [|reflexivity].
    destruct (read_csv b) as [tb|]; [|discriminate].
    destruct (search_and_score ta tb) as [[best [[[r2 rmse] mae] mape]]|]; [|discriminate].
    destruct (model_dump io); [|discriminate].
    destruct (metrics_dump io); discriminate.
  - intros metrics H.
    destruct (train_returned io w metrics H) as (best & r2 & rmse & mae & mape & -> & Hm & Hj).
    split; [assumption|]. exists best, mae. auto.
Qed.

(** X14. A [train] that returns metrics, followed by
    [load_model_safely]: when the artifact on the disk loads and the
    metrics document reads back, the load answers [True], the loaded
    estimator is served with the metrics [train] returned, and every
    prediction answered from then on carries their formatted MAE as its
    confidence margin. *)
Theorem retrained_metrics_are_served io w metrics best :
  fst (train io w) = Ok (Some metrics) ->
  read_file MODEL_PATH (model_joblib (snd (train io w))) ≫= joblib_load = Ok best ->
  is_ok (feature_names_in_ best) = true ->
  json_load (json_dump metrics) = Ok metrics ->
  let w' := snd (load_model_safely (snd (train io w))) in
  fst (load_model_safely (snd (train io w))) = true /\
  model w' = Some best /\
  model_metrics w' = metrics /\
  exists mae,
    row_get "mae_usd" metrics = Some (CFloat mae) /\
    forall data body,
      predict_price data w' = Response body ->
      row_get "confidence_margin_usd" body = Some (CStr (format_usd mae)).
Proof.
  intros Htrain Hload Hnames Hjson. cbn zeta.
  destruct (train_returned io w metrics Htrain)
    as (trained & r2 & rmse & mae & mape & Hmetrics & _ & Hfile).
  unfold load_model_safely. rewrite Hload.
  destruct (feature_names_in_ best) as [names|]; [|discriminate]. cbn [snd fst].
  change (model_metrics_json (set_model_features (Some names)
                                (set_model (Some best) (snd (train io w)))))
    with (model_metrics_json (snd (train io w))).
  rewrite Hfile. cbn [read_file mbind result_bind]. rewrite Hjson. cbn [fst snd].
  split; [reflexivity|]. split; [reflexivity|]. split; [reflexivity|].
  exists mae. split; [rewrite Hmetrics; reflexivity|].
  intros data body. unfold predict_price. cbn [model set_model_metrics].
  destruct (predict_frame _ _ _); [|discriminate].
  intros [= <-]. cbn [model_metrics]. rewrite Hmetrics. reflexivity.
Qed.

(** ** The cycle *)

Lemma cycle_begin_files io w :
  let w' := snd (cycle_begin io w) in
  train_processed w' = train_processed w /\ test_processed w' = test_processed w /\
  model_joblib w' = model_joblib w /\ model_metrics_json w' = model_metrics_json w.
Proof.
  unfold cycle_begin.
  destruct (read_file _ _ ≫= read_csv); cbn; [|auto].
  destruct (feedback_local w) as [dir|]; cbn; [|auto].
  destruct (json_files dir); cbn; [auto|].
  destruct (temp_write io); cbn; auto.
Qed.

Lemma cycle_replace_files io w :
  let w' := snd (cycle_replace io w) in
  train_processed w' = train_processed w /\ test_processed w' = test_processed w /\
  model_joblib w' = model_joblib w /\ model_metrics_json w' = model_metrics_json w.
Proof.
  unfold cycle_replace.
  destruct (replace_fault io); cbn; [auto|].
  destruct (temp_updated w); cbn; auto.
Qed.

(** Having entered its [try], the cycle holds the temporary file. *)
Lemma cycle_begin_temp io w :
  enters (fst (cycle_begin io w)) = true ->
  exists c augmented,
    fst (cycle_begin io w) = Entered c /\
    temp_updated (snd (cycle_begin io w)) = Some augmented.
Proof.
  destruct (cycle_begin io w) as [[r|c] w1] eqn:Hbegin; [discriminate|]. intros _.
  destruct (cycle_begin_entered io w c w1 Hbegin) as (content & dir & _ & _ & _ & _ & _ & _ & Hw1).
  cbn [fst snd]. rewrite Hw1. eauto.
Qed.

(** After [os.replace], the canonical path holds what the temporary
    file held, and the files the trainer reads and writes are as before
    the cycle. *)
Lemma cycle_replace_entered io w :
  enters (fst (cycle_begin io w)) = true ->
  replace_fault io = None ->
  let w1 := snd (cycle_begin io w) in
  exists w2,
    cycle_replace io w1 = (Ok tt, w2) /\
    merged_data w2 = temp_updated w1 /\ is_Some (merged_data w2) /\
    train_processed w2 = train_processed w /\ test_processed w2 = test_processed w /\
    model_joblib w2 = model_joblib w /\ model_metrics_json w2 = model_metrics_json w.
Proof.
  intros Henters Hreplace. cbn zeta.
  destruct (cycle_begin_temp io w Henters) as (c & augmented & _ & Htemp).
  pose proof (cycle_begin_files io w) as (B1 & B2 & B3 & B4). cbn zeta in *.
  destruct (cycle_begin io w) as [s w1]. cbn [snd] in *.
  unfold cycle_replace. rewrite Hreplace, Htemp.
  eexists. split; [reflexivity|]. cbn [merged_data set_temp_updated set_merged_data].
  split; [reflexivity|]. split; [eauto|]. cbn. auto.
Qed.

(** X15. The feedback never reaches the trainer. While the dataset
    augmented with the feedback stands at the canonical path, [train]
    reads the processed files, which the cycle does not rebuild: its
    outcome and the artifacts it writes are those it gives on the world
    from before the cycle. *)
Theorem cycle_trainer_never_sees_feedback io w :
  enters (fst (cycle_begin io w)) = true ->
  replace_fault io = None ->
  let w2 := snd (cycle_replace io (snd (cycle_begin io w))) in
  merged_data w2 = temp_updated (snd (cycle_begin io w)) /\
  is_Some (merged_data w2) /\
  fst (train io w2) = fst (train io w) /\
  model_joblib (snd (train io w2)) = model_joblib (snd (train io w)) /\
  model_metrics_json (snd (train io w2)) = model_metrics_json (snd (train io w)).
Proof.
  intros Henters Hreplace. cbn zeta.
  destruct (cycle_replace_entered io w Henters Hreplace)
    as (w2 & -> & Hdata & Hsome & H1 & H2 & H3 & H4).
  cbn [snd]. split; [assumption|]. split; [assumption|].
  apply train_ext; assumption.
Qed.

Lemma move_to_archive_all io files : forall d,
  (forall f, rename_fault io f = None) ->
  List.NoDup files ->
  (forall f, In f files -> is_Some (entries d !! f)) ->
  fst (move_to_archive io files d) = Ok tt /\
  (forall f, In f files -> entries (snd (move_to_archive io files d)) !! f = None) /\
  (forall f, ~ In f files -> entries (snd (move_to_archive io files d)) !! f = entries d !! f).
Proof.
  induction files as [|a files IH]; intros d Hno Hnd Hall; cbn [move_to_archive].
  - cbn. split; [reflexivity|]. split; [intros f []|reflexivity].
  - rewrite Hno. destruct (Hall a (or_introl eq_refl)) as [content Ha]. rewrite Ha.
    apply List.NoDup_cons_iff in Hnd as [Hfresh Hnd].
    set (d' := {| entries := delete a (entries d);
                  archive := Some (<[a := content]> (default ∅ (archive d))) |}).
    destruct (IH d' Hno Hnd) as (Hok & Hgone & Hrest).
    { intros f Hf. cbn. rewrite lookup_delete_ne by congruence. apply Hall. right. assumption. }
    split; [exact Hok|]. split.
    + intros f [<-|Hf]; [|apply Hgone; assumption].
      rewrite Hrest by assumption. cbn. apply lookup_delete_eq.
    + intros f Hf. rewrite Hrest by (intros H; apply Hf; right; exact H).
      cbn. apply lookup_delete_ne. intros ->. apply Hf. left. reflexivity.
Qed.

Lemma json_files_keys d :
  json_files d = List.filter (fun f => endswith f ".json") (map fst (map_to_list (entries d))).
Proof.
  unfold json_files, listdir. rewrite List.filter_app.
  destruct (archive d); cbn; apply app_nil_r.
Qed.

Lemma NoDup_json_files d : List.NoDup (json_files d).
Proof.
  rewrite json_files_keys. apply List.NoDup_filter, NoDup_ListNoDup.
  apply NoDup_fst_map_to_list.
Qed.

(** Archiving every listed file of a directory, with no fault: the
    files are gone from the directory and stand in the archive. *)
Lemma archive_feedback_all io w dir :
  archive_makedirs_fault io = None ->
  (forall f, rename_fault io f = None) ->
  feedback_local w = Some dir ->
  let r := archive_feedback io (json_files dir) w in
  fst r = Ok tt /\
  pending_files (snd r) = ∅ /\
  (forall name content,
     pending_files w !! name = Some content -> archived_files (snd r) !! name = Some content).
Proof.
  intros Hmk Hno Hdir. cbn zeta. unfold archive_feedback. rewrite Hmk, Hdir.
  change (default empty_dir (Some dir)) with dir.
  set (d := {| entries := entries dir; archive := Some (default ∅ (archive dir)) |}).
  destruct (move_to_archive_all io (json_files dir) d Hno (NoDup_json_files dir))
    as (Hok & Hgone & Hrest).
  { intros f Hf. apply json_files_In in Hf as [_ Hf]. exact Hf. }
  pose proof (move_to_archive_keeps io (json_files dir) d) as Hkeeps.
  destruct (move_to_archive io (json_files dir) d) as [r d'] eqn:Hmove.
  cbn [fst snd] in *. split; [assumption|]. split.
  - unfold pending_files. cbn. apply map_eq. intros k. rewrite lookup_empty.
    apply map_lookup_filter_None. cbn.
    destruct (entries d' !! k) as [v|] eqn:Hk; [|left; reflexivity].
    right. intros v' [= <-] Hjson.
    destruct (in_dec string_dec k (json_files dir)) as [Hin|Hout].
    + rewrite (Hgone k Hin) in Hk. discriminate.
    + rewrite (Hrest k Hout) in Hk. apply Hout. eapply In_json_files; eassumption.
  - intros name content [Hjson (dir0 & Hdir0 & Hname)]%pending_files_lookup.
    assert (dir0 = dir) as -> by congruence.
    unfold archived_files. cbn.
    destruct (Hkeeps name) as [Hkeep _]. destruct (Hkeep content Hname) as [Hstay|Harch].
    + rewrite (Hgone name) in Hstay; [discriminate|]. eapply In_json_files; eassumption.
    + exact Harch.
Qed.

(** X16. A cycle that commits. When the reload has answered [True]
    and nothing fails while archiving, every feedback file that was
    pending stands in the archive with its content and none is pending
    any more; and when the [finally] succeeds, the cycle returns what
    [train] returns on the world from before the cycle. *)
Theorem committed_cycle_archives_all io w :
  reload_reported_success io w = true ->
  archive_makedirs_fault io = None ->
  (forall f, rename_fault io f = None) ->
  let w' := snd (run_full_retrain_cycle io w) in
  pending_files w' = ∅ /\
  (forall name content,
     pending_files w !! name = Some content -> archived_files w' !! name = Some content) /\
  (restore_write io = Written -> temp_remove_fault io = None ->
   fst (run_full_retrain_cycle io w) = fst (train io w)).
Proof.
  intros Hreload Hmk Hno. cbn zeta.
  unfold reload_reported_success in Hreload.
  unfold run_full_retrain_cycle, cycle_try, cycle_retrain.
  pose proof (cycle_begin_frame io w) as (_ & Bf & _).
  pose proof (cycle_begin_files io w) as (B1 & B2 & B3 & B4).
  destruct (cycle_begin io w) as [[r|c] w1] eqn:Hbegin; [discriminate|].
  destruct (cycle_begin_entered io w c w1 Hbegin)
    as (content & dir & _ & _ & Hdir & Hfiles & _).
  pose proof (cycle_replace_frame io w1) as (Rf & _).
  pose proof (cycle_replace_files io w1) as (R1 & R2 & R3 & R4).
  destruct (cycle_replace io w1) as [[[]|e] w2] eqn:Hreplace; [|discriminate].
  pose proof (train_frame io w2) as (_ & _ & Tf & _).
  pose proof (train_ext io w w2) as (Tsame & _).
  { cbn in *. congruence. } { cbn in *. congruence. } { cbn in *. congruence. }
  { cbn in *. congruence. }
  destruct (train io w2) as [[returned|e] w3] eqn:Htrain; [|discriminate].
  pose proof (load_model_safely_files w3) as (_ & _ & Lf).
  destruct (load_model_safely w3) as [[|] w4] eqn:Hload; [|discriminate].
  cbn [fst snd] in *.
  assert (feedback_local w4 = Some dir) as Hdir4 by congruence.
  rewrite Hfiles.
  destruct (archive_feedback_all io w4 dir Hmk Hno Hdir4) as (Aok & Apending & Aarchived).
  destruct (archive_feedback io (json_files dir) w4) as [ra w5] eqn:Harchive.
  cbn [fst snd] in *. subst ra.
  pose proof (cycle_finally_frame io c w5) as (Ff & _).
  assert (forall name text,
            pending_files w !! name = Some text -> pending_files w4 !! name = Some text)
    as Hsame.
  { intros name text. rewrite !pending_files_lookup.
    intros [Hjson (dir0 & Hdir0 & Hname)]. split; [assumption|].
    exists dir0. split; [congruence|assumption]. }
  destruct (cycle_finally io c w5) as [[[]|e] w6] eqn:Hfinally; cbn [fst snd] in *.
  - split; [|split].
    + unfold pending_files in *. rewrite Ff. assumption.
    + intros name text Hp. unfold archived_files in *. rewrite Ff.
      apply Aarchived, Hsame. assumption.
    + intros _ _. congruence.
  - split; [|split].
    + unfold pending_files in *. rewrite Ff. assumption.
    + intros name text Hp. unfold archived_files in *. rewrite Ff.
      apply Aarchived, Hsame. assumption.
    + intros Hrestore Hremove. unfold cycle_finally in Hfinally.
      rewrite Hrestore in Hfinally. cbn in Hfinally.
      destruct (temp_updated w5); [rewrite Hremove in Hfinally|]; discriminate.
Qed.

(** X17. A trainer that raises. The cycle returns the exception as
    [{"error": str(e)}]; the feedback directory and the served
    estimator, schema and metrics are as before the cycle. *)
Theorem raising_trainer_is_reported io w e :
  enters (fst (cycle_begin io w)) = true ->
  replace_fault io = None ->
  fst (train io w) = Raise e ->
  let r := run_full_retrain_cycle io w in
  feedback_local (snd r) = feedback_local w /\ model (snd r) = model w /\
  model_features (snd r) = model_features w /\ model_metrics (snd r) = model_metrics w /\
  (restore_write io = Written -> temp_remove_fault io = None ->
   fst r = Ok (error_dict e)).
Proof.
  intros Henters Hfault Htrain. cbn zeta.
  destruct (cycle_replace_entered io w Henters Hfault)
    as (w2 & Hreplace & _ & _ & H1 & H2 & H3 & H4).
  destruct (train_ext io w w2 H1 H2 H3 H4) as (Hsame & _).
  destruct (cycle_begin_temp io w Henters) as (c & augmented & Hc & _).
  destruct (cycle_begin io w) as [s w1] eqn:Hbegin. cbn [fst snd] in *. subst s.
  destruct (train io w2) as [r3 w3] eqn:Htrain2. cbn [fst] in Hsame.
  assert (r3 = Raise e) as -> by congruence.
  exact (trainer_exception_rolls_back io w c w1 w2 e w3 Hbegin Hreplace Htrain2).
Qed.

(** X18. A breach the cycle cannot act on. With the canonical dataset
    missing or unreadable, the cycle stops at once; the check still
    answers 200 with [retrain_triggered] true, the error sits in
    [new_metrics], and nothing in the world has changed. *)
Theorem breach_without_dataset io w :
  breaches (evaluate_performance w) = true ->
  is_ok (read_file MERGED_DATA_PATH (merged_data w) ≫= read_csv) = false ->
  exists report,
    check_model_performance io w = (Response report, w) /\
    retrain_triggered report = true /\
    new_metrics report = Some (error_dict "Falha ao carregar dados originais.").
Proof.
  intros Hbreach Hread. unfold check_model_performance.
  destruct (evaluate_performance w) as [r|mape]; [discriminate|].
  unfold run_full_retrain_cycle, cycle_begin.
  destruct (read_file MERGED_DATA_PATH (merged_data w) ≫= read_csv); [discriminate|].
  eexists. split; [reflexivity|]. cbn. auto.
Qed.

(** X19. A restore that fails. The exception of the [finally] replaces
    what the cycle was about to return, the canonical path holds what
    the failed write left there, and a check that triggered the cycle
    answers 500, whatever the cycle had done before. *)
Theorem failed_restore_answers_error io w e remains :
  enters (fst (cycle_begin io w)) = true ->
  restore_write io = WriteFails e remains ->
  fst (run_full_retrain_cycle io w) = Raise e /\
  merged_data (snd (run_full_retrain_cycle io w)) = remains /\
  (breaches (evaluate_performance w) = true ->
   fst (check_model_performance io w) = performance_error e).
Proof.
  intros Henters Hrestore.
  assert (fst (run_full_retrain_cycle io w) = Raise e /\
          merged_data (snd (run_full_retrain_cycle io w)) = remains) as [H1 H2].
  { unfold run_full_retrain_cycle.
    destruct (cycle_begin io w) as [[r|c] w1]; [discriminate|].
    destruct (cycle_try io c w1) as [returned w2].
    unfold cycle_finally. rewrite Hrestore. cbn. auto. }
  split; [assumption|]. split; [assumption|].
  intros Hbreach. unfold check_model_performance.
  destruct (evaluate_performance w) as [r|mape]; [discriminate|].
  destruct (run_full_retrain_cycle io w) as [[returned|e'] w']; cbn in *; congruence.
Qed.

End Further.

(** * The further properties, on the scenarios *)

Section FurtherConcrete.
#[local] Existing Instance Toy.libraries.

Lemma distinct_sale_columns : List.NoDup (columns Cases.a_sale).
Proof.
  apply NoDup_ListNoDup. apply (bool_decide_unpack _). vm_compute. reflexivity.
Qed.

(** [Cases.a_sale], engineered. *)
Lemma engineer_features_keeps_columns_witness :
  engineer_features Cases.a_sale = Ok Cases.sale_vector /\
  (forall c, ~ In c engineered_columns ->
             row_get c Cases.sale_vector = row_get c Cases.a_sale) /\
  (forall c, In c ["house_age"; "time_since_renovation"; "was_renovated"; "total_rooms";
                   "sqft_per_room"] ->
             exists v, row_get c Cases.sale_vector = Some v /\ is_number v = true).
Proof.
  assert (engineer_features Cases.a_sale = Ok Cases.sale_vector) as H
    by (vm_compute; reflexivity).
  split; [exact H|].
  exact (engineer_features_keeps_columns Cases.a_sale Cases.sale_vector H).
Defined.


(** The sale of 2014, measured: 59 years old, 23 since the renovation. *)
Example engineered_sale :
  date_year Cases.a_sale = 2014 /\
  row_get "house_age" Cases.sale_vector = Some (CInt 59) /\
  row_get "time_since_renovation" Cases.sale_vector = Some (CInt 23) /\
  row_get "was_renovated" Cases.sale_vector = Some (CInt 1) /\
  columns Cases.processed_sale
  = [ "bedrooms"; "bathrooms"; "sqft_living"; "zipcode"; "Mean_Income"; "house_age";
      "time_since_renovation"; "was_renovated"; "total_rooms"; "sqft_per_room"; "log_price" ] /\
  row_get "Mean_Income" Cases.processed_sale = Some (CFloat 0).
Proof. repeat split; vm_compute; reflexivity. Qed.

(** [Toy.a_house] priced by the script and by the endpoint. *)
Lemma make_prediction_agrees_with_api_witness :
  model Scenario.breached = Some Toy.served /\
  model_features Scenario.breached = Some ["bedrooms"] /\
  List.NoDup ["bedrooms"] /\
  let answer := make_prediction (model Scenario.breached) (model_features Scenario.breached)
                  (HouseData_dict Toy.a_house) in
  match predict_price Toy.a_house Scenario.breached with
  | Response body =>
      row_get "predicted_price" answer = row_get "predicted_price" body /\
      row_get "predicted_price_usd" answer = row_get "predicted_price_usd" body /\
      row_get "error" answer = None
  | HTTPException _ detail =>
      exists e, answer = [("error", CStr e)] /\
                detail = "Erro interno no servidor: " ++ e
  end.
Proof.
  assert (List.NoDup ["bedrooms"]) as Hnd
    by (constructor; [intros []|constructor]).
  split; [reflexivity|]. split; [reflexivity|]. split; [exact Hnd|].
  exact (make_prediction_agrees_with_api Toy.a_house Scenario.breached Toy.served
           ["bedrooms"] eq_refl eq_refl Hnd).
Defined.

(** The start of a process with the served artifact on the disk. *)
Lemma script_loads_what_api_loads_witness :
  model Cases.at_startup = None /\
  model_features Cases.at_startup = None /\
  let w' := snd (load_model_safely Cases.at_startup) in
  (model w', model_features w') = load_predictor (model_joblib Cases.at_startup).
Proof.
  split; [reflexivity|]. split; [reflexivity|].
  exact (script_loads_what_api_loads Cases.at_startup eq_refl eq_refl).
Defined.

(** What the two loads leave: the served estimator and its schema. *)
Example loaded_at_startup :
  option_map Toy.name (fst (load_predictor (model_joblib Cases.at_startup))) = Some "served" /\
  snd (load_predictor (model_joblib Cases.at_startup)) = Some ["bedrooms"] /\
  model_metrics (snd (load_model_safely Cases.at_startup)) = metrics_not_found.
Proof. repeat split; vm_compute; reflexivity. Qed.

(** [Cases.a_sale], processed. *)
Lemma build_features_frame_columns_witness :
  List.NoDup (columns Cases.a_sale) /\
  build_features_frame Cases.a_sale = Ok Cases.processed_sale /\
  exists features,
    columns Cases.processed_sale = (features ++ [TARGET])%list /\
    (forall c, In c features <->
               (In c (columns Cases.a_sale) \/
                In c ["house_age"; "time_since_renovation"; "was_renovated"; "total_rooms";
                      "sqft_per_room"]) /\ ~ In c excluded_cols) /\
    (forall c v, row_get c Cases.processed_sale = Some v -> isna v = false).
Proof.
  assert (build_features_frame Cases.a_sale = Ok Cases.processed_sale) as H
    by (vm_compute; reflexivity).
  split; [exact distinct_sale_columns|]. split; [exact H|].
  exact (build_features_frame_columns Cases.a_sale Cases.processed_sale
           distinct_sale_columns H).
Defined.

Lemma build_features_frame_accepts_witness :
  List.NoDup (columns Cases.a_sale) /\
  is_ok (build_features_frame Cases.a_sale) =
    is_ok (engineer_features Cases.a_sale) &&
    (member "price" (columns Cases.a_sale) || member "log_price" (columns Cases.a_sale)).
Proof.
  split; [exact distinct_sale_columns|].
  exact (build_features_frame_accepts Cases.a_sale distinct_sale_columns).
Defined.

(** A request body is no sale: it has no price, and cannot be
    processed for training. *)
Example house_without_price :
  is_ok (engineer_features (HouseData_dict Toy.a_house)) = true /\
  is_ok (build_features_frame (HouseData_dict Toy.a_house)) = false.
Proof. split; vm_compute; reflexivity. Qed.

(** A truncated document next to the record of [Scenario.stable]. *)
Lemma unreadable_file_is_skipped_witness :
  feedback_local Scenario.stable
    = Some {| entries := Scenario.close_pending; archive := None |} /\
  entries {| entries := Scenario.close_pending; archive := None |} !! Cases.broken_name
    = None /\
  (endswith Cases.broken_name ".json" = false \/
   is_ok (json_load Cases.broken_content) = false) /\
  pending_records
    (set_feedback_local
       (Some (put_entry Cases.broken_name (Some Cases.broken_content)
                {| entries := Scenario.close_pending; archive := None |}))
       Scenario.stable)
  ≡ₚ pending_records Scenario.stable.
Proof.
  assert (entries {| entries := Scenario.close_pending; archive := None |}
            !! Cases.broken_name = None) as Hnew by (vm_compute; reflexivity).
  assert (endswith Cases.broken_name ".json" = false \/
          is_ok (json_load Cases.broken_content) = false) as Hbad
    by (right; vm_compute; reflexivity).
  split; [reflexivity|]. split; [exact Hnew|]. split; [exact Hbad|].
  exact (unreadable_file_is_skipped Scenario.stable
           {| entries := Scenario.close_pending; archive := None |}
           Cases.broken_name Cases.broken_content eq_refl Hnew Hbad).
Defined.

(** A pending document without a ground truth. *)
Lemma unusable_record_fails_check_witness :
  In Toy.served_metrics (pending_records Cases.stray) /\
  (row_get "ground_truth_price" Toy.served_metrics = None \/
   is_ok (predict_frame (model Cases.stray) (model_features Cases.stray) Toy.served_metrics)
   = false) /\
  exists e, check_model_performance no_faults Cases.stray = (performance_error e, Cases.stray).
Proof.
  assert (In Toy.served_metrics (pending_records Cases.stray)) as Hin
    by (vm_compute; left; reflexivity).
  assert (row_get "ground_truth_price" Toy.served_metrics = None \/
          is_ok (predict_frame (model Cases.stray) (model_features Cases.stray)
                   Toy.served_metrics) = false) as Hbad
    by (left; reflexivity).
  split; [exact Hin|]. split; [exact Hbad|].
  exact (unusable_record_fails_check no_faults Cases.stray Toy.served_metrics Hin Hbad).
Defined.

(** Feedback pending on a server that has no model. *)
Lemma check_without_model_fails_witness :
  model Cases.no_model = None /\
  pending_records Cases.no_model <> [] /\
  exists e, check_model_performance no_faults Cases.no_model
            = (performance_error e, Cases.no_model).
Proof.
  assert (pending_records Cases.no_model <> []) as Hne
    by (vm_compute; intros H; discriminate H).
  split; [reflexivity|]. split; [exact Hne|].
  exact (check_without_model_fails no_faults Cases.no_model eq_refl Hne).
Defined.

(** Two houses, one second. *)
Lemma same_second_other_id_keeps_both_witness :
  same_second Scenario.arrival_1 Scenario.arrival_2 /\
  id (house Toy.far_feedback) <> id (house Cases.other_feedback) /\
  let r1 := receive_feedback Scenario.arrival_1 no_faults Toy.far_feedback
              Scenario.empty_store in
  let r2 := receive_feedback Scenario.arrival_2 no_faults Cases.other_feedback (snd r1) in
  accepted (fst r1) = true /\
  accepted (fst r2) = true /\
  let name1 := feedback_name Scenario.arrival_1 (id (house Toy.far_feedback)) in
  let name2 := feedback_name Scenario.arrival_2 (id (house Cases.other_feedback)) in
  name1 <> name2 /\
  pending_files (snd r2) !! name1 = Some (json_dump (FeedbackData_dict Toy.far_feedback)) /\
  pending_files (snd r2) !! name2 = Some (json_dump (FeedbackData_dict Cases.other_feedback)).
Proof.
  assert (same_second Scenario.arrival_1 Scenario.arrival_2) as Hsecond
    by (repeat split; reflexivity).
  assert (id (house Toy.far_feedback) <> id (house Cases.other_feedback)) as Hid
    by (cbn; intros H; discriminate H).
  assert (accepted (fst (receive_feedback Scenario.arrival_1 no_faults Toy.far_feedback
                           Scenario.empty_store)) = true) as H1
    by (vm_compute; reflexivity).
  assert (accepted (fst (receive_feedback Scenario.arrival_2 no_faults Cases.other_feedback
                           (snd (receive_feedback Scenario.arrival_1 no_faults
                                   Toy.far_feedback Scenario.empty_store)))) = true) as H2
    by (vm_compute; reflexivity).
  split; [exact Hsecond|]. split; [exact Hid|].
  cbv zeta. split; [exact H1|]. split; [exact H2|].
  exact (same_second_other_id_keeps_both Scenario.arrival_1 Scenario.arrival_2
           no_faults no_faults Toy.far_feedback Cases.other_feedback Scenario.empty_store
           Hsecond Hid H1 H2).
Defined.

(** A submission to the empty store. *)
Lemma submitted_record_is_pending_witness :
  accepted (fst (receive_feedback Scenario.arrival_1 no_faults Toy.far_feedback
                   Scenario.empty_store)) = true /\
  json_load (json_dump (FeedbackData_dict Toy.far_feedback))
    = Ok (FeedbackData_dict Toy.far_feedback) /\
  In (FeedbackData_dict Toy.far_feedback)
    (pending_records (snd (receive_feedback Scenario.arrival_1 no_faults Toy.far_feedback
                             Scenario.empty_store))).
Proof.
  assert (accepted (fst (receive_feedback Scenario.arrival_1 no_faults Toy.far_feedback
                           Scenario.empty_store)) = true) as Hack
    by (vm_compute; reflexivity).
  assert (json_load (json_dump (FeedbackData_dict Toy.far_feedback))
          = Ok (FeedbackData_dict Toy.far_feedback)) as Hload
    by (vm_compute; reflexivity).
  split; [exact Hack|]. split; [exact Hload|].
  exact (submitted_record_is_pending Scenario.arrival_1 no_faults Toy.far_feedback
           Scenario.empty_store Hack Hload).
Defined.

(** The cycle of [Scenario.breached], up to the call of the trainer. *)
Lemma cycle_trainer_never_sees_feedback_witness :
  enters (fst (cycle_begin no_faults Scenario.breached)) = true /\
  replace_fault no_faults = None /\
  let w2 := snd (cycle_replace no_faults (snd (cycle_begin no_faults Scenario.breached))) in
  merged_data w2 = temp_updated (snd (cycle_begin no_faults Scenario.breached)) /\
  is_Some (merged_data w2) /\
  fst (train no_faults w2) = fst (train no_faults Scenario.breached) /\
  model_joblib (snd (train no_faults w2))
    = model_joblib (snd (train no_faults Scenario.breached)) /\
  model_metrics_json (snd (train no_faults w2))
    = model_metrics_json (snd (train no_faults Scenario.breached)).
Proof.
  assert (enters (fst (cycle_begin no_faults Scenario.breached)) = true) as Henters
    by (vm_compute; reflexivity).
  split; [exact Henters|]. split; [reflexivity|].
  exact (cycle_trainer_never_sees_feedback no_faults Scenario.breached Henters eq_refl).
Defined.

(** The dataset the trainer does not read holds the feedback record. *)
Example augmented_dataset_in_place :
  merged_data (snd (cycle_replace no_faults (snd (cycle_begin no_faults Scenario.breached))))
  <> merged_data Scenario.breached /\
  fst (train no_faults Scenario.breached) = fst (train no_faults Scenario.stable).
Proof.
  split; [vm_compute; intros H; discriminate H|]. vm_compute. reflexivity.
Qed.

(** The cycle of [Scenario.breached], committed. *)
Lemma committed_cycle_archives_all_witness :
  reload_reported_success no_faults Scenario.breached = true /\
  archive_makedirs_fault no_faults = None /\
  (forall f, rename_fault no_faults f = None) /\
  let w' := snd (run_full_retrain_cycle no_faults Scenario.breached) in
  pending_files w' = ∅ /\
  (forall name content,
     pending_files Scenario.breached !! name = Some content ->
     archived_files w' !! name = Some content) /\
  (restore_write no_faults = Written -> temp_remove_fault no_faults = None ->
   fst (run_full_retrain_cycle no_faults Scenario.breached)
   = fst (train no_faults Scenario.breached)).
Proof.
  assert (reload_reported_success no_faults Scenario.breached = true) as Hreload
    by (vm_compute; reflexivity).
  split; [exact Hreload|]. split; [reflexivity|]. split; [intros f; reflexivity|].
  exact (committed_cycle_archives_all no_faults Scenario.breached Hreload eq_refl
           (fun f => eq_refl)).
Defined.

(** Processed files without a record: the search raises. *)
Lemma raising_trainer_is_reported_witness :
  enters (fst (cycle_begin no_faults Cases.empty_training)) = true /\
  replace_fault no_faults = None /\
  fst (train no_faults Cases.empty_training)
    = Raise "ValueError: Found array with 0 sample(s)" /\
  let r := run_full_retrain_cycle no_faults Cases.empty_training in
  feedback_local (snd r) = feedback_local Cases.empty_training /\
  model (snd r) = model Cases.empty_training /\
  model_features (snd r) = model_features Cases.empty_training /\
  model_metrics (snd r) = model_metrics Cases.empty_training /\
  (restore_write no_faults = Written -> temp_remove_fault no_faults = None ->
   fst r = Ok (error_dict "ValueError: Found array with 0 sample(s)")).
Proof.
  assert (enters (fst (cycle_begin no_faults Cases.empty_training)) = true) as Henters
    by (vm_compute; reflexivity).
  assert (fst (train no_faults Cases.empty_training)
          = Raise "ValueError: Found array with 0 sample(s)") as Htrain
    by (vm_compute; reflexivity).
  split; [exact Henters|]. split; [reflexivity|]. split; [exact Htrain|].
  exact (raising_trainer_is_reported no_faults Cases.empty_training
           "ValueError: Found array with 0 sample(s)" Henters eq_refl Htrain).
Defined.

(** A breach with the dataset gone. *)
Lemma breach_without_dataset_witness :
  breaches (evaluate_performance Cases.no_dataset) = true /\
  is_ok (read_file MERGED_DATA_PATH (merged_data Cases.no_dataset) ≫= read_csv) = false /\
  exists report,
    check_model_performance no_faults Cases.no_dataset = (Response report, Cases.no_dataset) /\
    retrain_triggered report = true /\
    new_metrics report = Some (error_dict "Falha ao carregar dados originais.").
Proof.
  assert (breaches (evaluate_performance Cases.no_dataset) = true) as Hbreach
    by (vm_compute; reflexivity).
  assert (is_ok (read_file MERGED_DATA_PATH (merged_data Cases.no_dataset) ≫= read_csv)
          = false) as Hread by reflexivity.
  split; [exact Hbreach|]. split; [exact Hread|].
  exact (breach_without_dataset no_faults Cases.no_dataset Hbreach Hread).
Defined.

(** The cycle of [Scenario.breached], the disk full at the restore. *)
Lemma failed_restore_answers_error_witness :
  enters (fst (cycle_begin Cases.disk_full Scenario.breached)) = true /\
  restore_write Cases.disk_full
    = WriteFails "OSError: [Errno 28] No space left on device" (Some EmptyString) /\
  fst (run_full_retrain_cycle Cases.disk_full Scenario.breached)
    = Raise "OSError: [Errno 28] No space left on device" /\
  merged_data (snd (run_full_retrain_cycle Cases.disk_full Scenario.breached))
    = Some EmptyString /\
  (breaches (evaluate_performance Scenario.breached) = true ->
   fst (check_model_performance Cases.disk_full Scenario.breached)
   = performance_error "OSError: [Errno 28] No space left on device").
Proof.
  assert (enters (fst (cycle_begin Cases.disk_full Scenario.breached)) = true) as Henters
    by (vm_compute; reflexivity).
  split; [exact Henters|]. split; [reflexivity|].
  exact (failed_restore_answers_error Cases.disk_full Scenario.breached
           "OSError: [Errno 28] No space left on device" (Some EmptyString)
           Henters eq_refl).
Defined.

End FurtherConcrete.

Section TrainedConcrete.
#[local] Existing Instance Cases.reading_metrics.

(** A first training run on a server without an artifact, then the
    load: the fitted estimator is served with the metrics of the run. *)
Lemma retrained_metrics_are_served_witness :
  fst (train no_faults Cases.untrained) = Ok (Some Cases.trained_metrics) /\
  read_file MODEL_PATH (model_joblib (snd (train no_faults Cases.untrained))) ≫= joblib_load
    = Ok Toy.refitted /\
  is_ok (feature_names_in_ Toy.refitted) = true /\
  json_load (json_dump Cases.trained_metrics) = Ok Cases.trained_metrics /\
  let w' := snd (load_model_safely (snd (train no_faults Cases.untrained))) in
  fst (load_model_safely (snd (train no_faults Cases.untrained))) = true /\
  model w' = Some Toy.refitted /\
  model_metrics w' = Cases.trained_metrics /\
  exists mae,
    row_get "mae_usd" Cases.trained_metrics = Some (CFloat mae) /\
    forall data body,
      predict_price data w' = Response body ->
      row_get "confidence_margin_usd" body = Some (CStr (format_usd mae)).
Proof.
  assert (fst (train no_faults Cases.untrained) = Ok (Some Cases.trained_metrics)) as Htrain
    by (vm_compute; reflexivity).
  assert (mbind (M := result) joblib_load
            (read_file MODEL_PATH (model_joblib (snd (train no_faults Cases.untrained))))
          = Ok Toy.refitted) as Hload
    by (vm_compute; reflexivity).
  assert (json_load (json_dump Cases.trained_metrics) = Ok Cases.trained_metrics) as Hjson
    by (vm_compute; reflexivity).
  split; [exact Htrain|]. split; [exact Hload|]. split; [reflexivity|]. split; [exact Hjson|].
  exact (retrained_metrics_are_served no_faults Cases.untrained Cases.trained_metrics
           Toy.refitted Htrain Hload eq_refl Hjson).
Defined.

End TrainedConcrete.
